(** * A shallow embedding of [main.py] of the zotero_mcp server

    The server keeps a process-wide credential store and a cached client
    handle ([ZOTERO_LIBRARY_ID], [ZOTERO_API_KEY], [ZOTERO_LIBRARY_TYPE],
    [zot]) and exposes tool functions that call a third-party REST client
    (pyzotero).  The client is abstract here: its constructor and its methods
    [top], [everything], [item] and [delete_item] are parameters of a
    Section, each of which may raise.  Methods act on an abstract remote
    library state [W] and every method call is recorded in a call log, the
    way a test observes a substitute client.

    Strings are Rocq strings (byte sequences); the messages of the source
    are written in UTF-8.  Case folding ([str.lower]) and [str.strip] are
    modelled on ASCII characters.  Values stored in the JSON data of an item
    or in the criteria dict are modelled as scalars (str, int, None). *)

From Stdlib Require Import String Ascii List ZArith Lia Bool Permutation.
From Stdlib Require Import DecimalString.
Import ListNotations.
Open Scope list_scope.
Open Scope string_scope.
Set Warnings "-register-all".

(** ** Python values and helpers *)

Inductive value : Type :=
| VStr (s : string)
| VInt (z : Z)
| VNull.

Definition value_eqb (a b : value) : bool :=
  match a, b with
  | VStr s, VStr t => String.eqb s t
  | VInt x, VInt y => Z.eqb x y
  | VNull, VNull => true
  | _, _ => false
  end.

(** A Python dict with string keys, in insertion order. *)
Definition dict := list (string * value).

(** [d.get(k)]: the value stored under [k], if any. *)
Fixpoint dict_get (d : dict) (k : string) : option value :=
  match d with
  | [] => None
  | (k', v) :: d' => if String.eqb k k' then Some v else dict_get d' k
  end.

(** [d.get(k, default)] *)
Definition get_or (d : dict) (k : string) (default : value) : value :=
  match dict_get d k with Some v => v | None => default end.

(** [k in d] *)
Definition dict_in (k : string) (d : dict) : bool :=
  match dict_get d k with Some _ => true | None => false end.

(** [str(n)] for an integer. *)
Definition z_to_string (z : Z) : string := NilZero.string_of_int (Z.to_int z).
Definition nat_to_string (n : nat) : string := z_to_string (Z.of_nat n).

(** [str(v)] / f-string formatting of a value. *)
Definition py_str (v : value) : string :=
  match v with
  | VStr s => s
  | VInt z => z_to_string z
  | VNull => "None"
  end.

Definition nl : string := String (ascii_of_nat 10) EmptyString.

(** ASCII case folding, as [str.lower] does on ASCII text. *)
Definition lower_char (c : ascii) : ascii :=
  let n := nat_of_ascii c in
  if ((65 <=? n) && (n <=? 90))%nat then ascii_of_nat (n + 32)%nat else c.

Fixpoint lower (s : string) : string :=
  match s with
  | EmptyString => EmptyString
  | String c s' => String (lower_char c) (lower s')
  end.

(** [str.isspace] on an ASCII character: \t \n \v \f \r, \x1c-\x1f, space. *)
Definition is_space (c : ascii) : bool :=
  let n := nat_of_ascii c in
  (((9 <=? n) && (n <=? 13)) || ((28 <=? n) && (n <=? 32)))%nat.

Fixpoint lstrip (s : string) : string :=
  match s with
  | EmptyString => EmptyString
  | String c s' => if is_space c then lstrip s' else s
  end.

Fixpoint rev_string (s : string) : string :=
  match s with
  | EmptyString => EmptyString
  | String c s' => rev_string s' ++ String c EmptyString
  end.

(** [s.strip()] *)
Definition strip (s : string) : string := rev_string (lstrip (rev_string (lstrip s))).

(** [needle in hay] for strings. *)
Fixpoint str_in (needle hay : string) : bool :=
  String.prefix needle hay ||
  match hay with EmptyString => false | String _ hay' => str_in needle hay' end.

(** ["*" * n] *)
Fixpoint stars (n : nat) : string :=
  match n with
  | O => EmptyString
  | S n' => String "*" (stars n')
  end.

(** ** Exceptions *)

(** A raised Python exception: its class name and [str(e)]. *)
Record exn : Type := Exn { exn_class : string; exn_msg : string }.

Inductive Exc (A : Type) : Type :=
| Ok (a : A)
| Raise (e : exn).
Arguments Ok {A} a.
Arguments Raise {A} e.

Definition exc_bind {A B} (m : Exc A) (f : A -> Exc B) : Exc B :=
  match m with Ok a => f a | Raise e => Raise e end.

Notation "'let?' x := m 'in' k" := (exc_bind m (fun x => k))
  (at level 200, x name, m at level 100, k at level 200).

(** [v.lower()]: raises [AttributeError] unless [v] is a [str]. *)
Definition py_lower (v : value) : Exc string :=
  match v with
  | VStr s => Ok (lower s)
  | VInt _ => Raise (Exn "AttributeError" "'int' object has no attribute 'lower'")
  | VNull => Raise (Exn "AttributeError" "'NoneType' object has no attribute 'lower'")
  end.

(** ** JSON output

    [json.dumps(x, indent=2, ensure_ascii=False)] is kept as the JSON tree it
    prints; a reply is either plain text or a header followed by JSON. *)

Inductive json : Type :=
| JVal (v : value)
| JArr (l : list json)
| JObj (fields : list (string * json)).

Inductive reply : Type :=
| Text (s : string)
| TextJson (header : string) (j : json).

(** ** Items *)

(** An item as the Zotero API returns it: its [key], the other top-level
    fields (version, library, links, meta) and its [data] dict. *)
Record Item : Type := mkItem {
  item_key : string;
  item_meta : list (string * json);
  item_data : dict
}.

Definition dict_json (d : dict) : json := JObj (map (fun '(k, v) => (k, JVal v)) d).

Definition item_json (it : Item) : json :=
  JObj (("key", JVal (VStr (item_key it))) :: app (item_meta it) [("data", dict_json (item_data it))]).

(** Calls made on the client object, as a substitute client records them. *)
Inductive Call : Type :=
| CTop (limit : option Z)
| CEverything
| CItem (key : string)
| CDelete (key : string).

Definition untitled : string := "无标题".
Definition not_configured_msg : string :=
  "❌ 错误：Zotero未配置。请先使用 configure_zotero 工具设置您的API凭据。".
Definition not_configured_json_msg : string :=
  "Zotero未配置。请先使用 configure_zotero 工具设置您的API凭据。".

(** ** A substitute client

    A small in-memory stand-in for pyzotero, used to run the operations on
    concrete inputs: the client remembers its API key, the remote library is
    a list of items, [top] fails with the key ["bad-key"], and deleting a key
    that is not in the library fails. *)
Module Mock.

Definition Client : Type := string.
Definition W : Type := list Item.

Definition construct (library_id library_type api_key : string) : Exc Client := Ok api_key.

Definition top_ (c : Client) (limit : option Z) (w : W) : W * Exc (list Item) :=
  if c =? "bad-key" then (w, Raise (Exn "UserNotAuthorised" "Invalid key"))
  else match limit with
       | Some l => (w, Ok (firstn (Z.to_nat l) w))
       | None => (w, Ok w)
       end.

Definition everything_ (c : Client) (first : list Item) (w : W) : W * Exc (list Item) :=
  (w, Ok w).

Definition item_ (c : Client) (k : string) (w : W) : W * Exc Item :=
  match find (fun it => item_key it =? k) w with
  | Some it => (w, Ok it)
  | None => (w, Raise (Exn "ResourceNotFound" ("Not found: " ++ k)))
  end.

Definition delete_item_ (c : Client) (k : string) (w : W) : W * Exc unit :=
  if existsb (fun it => item_key it =? k) w
  then (filter (fun it => negb (item_key it =? k)) w, Ok tt)
  else (w, Raise (Exn "ResourceNotFound" ("Not found: " ++ k))).

Definition mk (k title type : string) : Item :=
  mkItem k [] [("itemType", VStr type); ("title", VStr title)].

Definition item_A : Item := mk "A" "Deep Learning" "book".
Definition item_B : Item := mk "B" "Old notes" "note".
Definition item_C : Item := mk "C" "learning Rust" "book".
Definition lib : W := [item_A; item_B; item_C].

End Mock.

Section Server.

(** The pyzotero client: its type, its constructor
    [zotero.Zotero(library_id, library_type, api_key)] and its methods, each
    of which may raise.  [W] is the state of the remote library. *)
Variable Client : Type.
Variable W : Type.
Variable construct : string -> string -> string -> Exc Client.
Variable top_ : Client -> option Z -> W -> W * Exc (list Item).
Variable everything_ : Client -> list Item -> W -> W * Exc (list Item).
Variable item_ : Client -> string -> W -> W * Exc Item.
Variable delete_item_ : Client -> string -> W -> W * Exc unit.

(** The module globals. *)
Record Cfg : Type := mkCfg {
  ZOTERO_LIBRARY_ID : string;
  ZOTERO_API_KEY : string;
  ZOTERO_LIBRARY_TYPE : string;
  zot : option Client
}.

Record St : Type := mkSt {
  cfg : Cfg;
  world : W;
  calls : list Call
}.

(** State and exceptions, threaded through every call. *)
Definition M (A : Type) : Type := St -> St * Exc A.

Definition ret {A} (a : A) : M A := fun st => (st, Ok a).
Definition raise {A} (e : exn) : M A := fun st => (st, Raise e).
Definition bind {A B} (m : M A) (f : A -> M B) : M B :=
  fun st => match m st with
            | (st', Ok a) => f a st'
            | (st', Raise e) => (st', Raise e)
            end.
(** [try: m except Exception as e: h(e)] *)
Definition try_except {A} (m : M A) (h : exn -> M A) : M A :=
  fun st => match m st with
            | (st', Ok a) => (st', Ok a)
            | (st', Raise e) => h e st'
            end.
Definition lift {A} (r : Exc A) : M A := fun st => (st, r).
Definition get_cfg : M Cfg := fun st => (st, Ok (cfg st)).
Definition put_cfg (c : Cfg) : M unit :=
  fun st => (mkSt c (world st) (calls st), Ok tt).

Notation "x <- m ;; k" := (bind m (fun x => k))
  (at level 61, m at next level, right associativity).
Notation "m ;;; k" := (bind m (fun _ => k))
  (at level 61, right associativity).

(** A method call on the client: recorded, then run against the library. *)
Definition call {A} (c : Call) (f : W -> W * Exc A) : M A :=
  fun st => let '(w', r) := f (world st) in
            (mkSt (cfg st) w' (app (calls st) [c]), r).

Definition zot_top (z : Client) (limit : option Z) : M (list Item) :=
  call (CTop limit) (top_ z limit).
Definition zot_everything (z : Client) (first : list Item) : M (list Item) :=
  call CEverything (everything_ z first).
Definition zot_item (z : Client) (k : string) : M Item :=
  call (CItem k) (item_ z k).
Definition zot_delete_item (z : Client) (k : string) : M unit :=
  call (CDelete k) (delete_item_ z k).

(** ** [get_zotero_client] *)
Definition get_zotero_client : M (option Client) :=
  c <- get_cfg ;;
  if (ZOTERO_LIBRARY_ID c =? "") || (ZOTERO_API_KEY c =? "") then ret None
  else match zot c with
       | Some z => ret (Some z)
       | None =>
         match construct (ZOTERO_LIBRARY_ID c) (ZOTERO_LIBRARY_TYPE c) (ZOTERO_API_KEY c) with
         | Ok z => put_cfg (mkCfg (ZOTERO_LIBRARY_ID c) (ZOTERO_API_KEY c)
                                  (ZOTERO_LIBRARY_TYPE c) (Some z)) ;;; ret (Some z)
         | Raise _ => ret None
         end
       end.

(** ** [configure_zotero(library_id, api_key, library_type="user")] *)
Definition configure_zotero (library_id api_key : string) (library_type : option string)
  : M reply :=
  let library_type := match library_type with Some t => t | None => "user" end in
  if (library_id =? "") || (api_key =? "") then
    ret (Text "错误：库ID和API密钥不能为空")
  else if negb ((library_type =? "user") || (library_type =? "group")) then
    ret (Text "错误：库类型必须是 'user' 或 'group'")
  else
    put_cfg (mkCfg (strip library_id) (strip api_key) (strip library_type) None) ;;;
    c <- get_cfg ;;
    try_except
      (test_client <- lift (construct (ZOTERO_LIBRARY_ID c) (ZOTERO_LIBRARY_TYPE c)
                                      (ZOTERO_API_KEY c)) ;;
       zot_top test_client (Some 1%Z) ;;;
       ret (Text ("✅ Zotero配置成功！" ++ nl ++ "库ID: " ++ ZOTERO_LIBRARY_ID c ++ nl
                  ++ "库类型: " ++ ZOTERO_LIBRARY_TYPE c)))
      (fun e => ret (Text ("❌ Zotero配置失败: " ++ exn_msg e ++ nl
                           ++ "请检查您的库ID和API密钥是否正确"))).

(** The summary dict built by [list_items] for each item (lines 71-76). *)
Definition list_items_row (item : Item) : json :=
  JObj [("key", JVal (VStr (item_key item)));
        ("title", JVal (get_or (item_data item) "title" (VStr untitled)));
        ("itemType", JVal (get_or (item_data item) "itemType" VNull));
        ("dateAdded", JVal (get_or (item_data item) "dateAdded" VNull))].

(** ** [list_items(limit=50)] *)
Definition list_items (limit : option Z) : M reply :=
  let limit := match limit with Some l => l | None => 50%Z end in
  z <- get_zotero_client ;;
  match z with
  | None => ret (Text not_configured_msg)
  | Some z =>
    try_except
      (items <- zot_top z (Some limit) ;;
       let result := map list_items_row items in
       ret (TextJson ("找到 " ++ nat_to_string (length result) ++ " 个条目:" ++ nl)
                     (JArr result)))
      (fun e => ret (Text ("获取条目列表失败: " ++ exn_msg e)))
  end.

(** ** [delete_item(item_key)] *)
Definition delete_item (item_key : string) : M reply :=
  z <- get_zotero_client ;;
  match z with
  | None => ret (Text not_configured_msg)
  | Some z =>
    try_except
      (zot_delete_item z item_key ;;; ret (Text ("成功删除条目: " ++ item_key)))
      (fun e => ret (Text ("删除条目失败: " ++ exn_msg e)))
  end.

(** The loop of [delete_items_batch] (lines 102-109): each key is deleted
    in its own [try]; the accumulator is [(success_count, errors)]. *)
Fixpoint delete_batch_loop (z : Client) (keys : list string) (success_count : nat)
  (errors : list string) : M (nat * list string) :=
  match keys with
  | [] => ret (success_count, errors)
  | key :: keys' =>
    acc <- try_except (zot_delete_item z key ;;; ret (S success_count, errors))
                      (fun e => ret (success_count, app errors [key ++ ": " ++ exn_msg e])) ;;
    delete_batch_loop z keys' (fst acc) (snd acc)
  end.

Definition join (sep : string) (l : list string) : string := String.concat sep l.

(** ** [delete_items_batch(item_keys)] *)
Definition delete_items_batch (item_keys : list string) : M reply :=
  z <- get_zotero_client ;;
  match z with
  | None => ret (Text not_configured_msg)
  | Some z =>
    try_except
      (acc <- delete_batch_loop z item_keys 0 [] ;;
       let '(success_count, errors) := acc in
       let result := "成功删除 " ++ nat_to_string success_count ++ " 个条目" in
       let result := match errors with
                     | [] => result
                     | _ => result ++ nl ++ "删除失败的条目:" ++ nl ++ join nl errors
                     end in
       ret (Text result))
      (fun e => ret (Text ("批量删除失败: " ++ exn_msg e)))
  end.

(** The summary dict built by [search_items] (lines 137-142). *)
Definition search_items_row (item : Item) (data : dict) : json :=
  JObj [("key", JVal (VStr (item_key item)));
        ("title", JVal (get_or data "title" (VStr untitled)));
        ("itemType", JVal (get_or data "itemType" VNull));
        ("dateAdded", JVal (get_or data "dateAdded" VNull))].

(** The loop of [search_items] (lines 130-142). *)
Fixpoint search_loop (query : string) (item_type : option string) (items : list Item)
  (filtered_items : list json) : Exc (list json) :=
  match items with
  | [] => Ok filtered_items
  | item :: items' =>
    let data := item_data item in
    let? title := py_lower (get_or data "title" (VStr "")) in
    let filtered_items :=
      if str_in (lower query) title then
        if match item_type with
           | None => true
           | Some t => value_eqb (get_or data "itemType" VNull) (VStr t)
           end
        then app filtered_items [search_items_row item data]
        else filtered_items
      else filtered_items in
    search_loop query item_type items' filtered_items
  end.

(** ** [search_items(query, item_type=None)] *)
Definition search_items (query : string) (item_type : option string) : M reply :=
  z <- get_zotero_client ;;
  match z with
  | None => ret (Text not_configured_msg)
  | Some z =>
    try_except
      (first <- zot_top z None ;;
       items <- zot_everything z first ;;
       filtered_items <- lift (search_loop query item_type items []) ;;
       ret (TextJson ("搜索结果 (" ++ nat_to_string (length filtered_items) ++ " 个条目):" ++ nl)
                     (JArr filtered_items)))
      (fun e => ret (Text ("搜索失败: " ++ exn_msg e)))
  end.

(** ** [get_item_details(item_key)] *)
Definition get_item_details (item_key : string) : M reply :=
  z <- get_zotero_client ;;
  match z with
  | None => ret (Text not_configured_msg)
  | Some z =>
    try_except
      (item <- zot_item z item_key ;;
       ret (TextJson ("条目详情:" ++ nl) (item_json item)))
      (fun e => ret (Text ("获取条目详情失败: " ++ exn_msg e)))
  end.

(** The per-item test of [retain_items_by_criteria] (lines 177-187):
    [should_retain] starts true and each present criterion may clear it;
    both criteria are evaluated, in this order. *)
Definition should_retain (criteria : dict) (item : Item) : Exc bool :=
  let data := item_data item in
  let should_retain := true in
  let should_retain :=
    match dict_get criteria "item_type" with
    | Some t => if negb (value_eqb (get_or data "itemType" VNull) t) then false
                else should_retain
    | None => should_retain
    end in
  match dict_get criteria "title_contains" with
  | Some s =>
    let? needle := py_lower s in
    let? title := py_lower (get_or data "title" (VStr "")) in
    Ok (if negb (str_in needle title) then false else should_retain)
  | None => Ok should_retain
  end.

(** The partition loop of [retain_items_by_criteria] (lines 176-194). *)
Fixpoint retain_loop (criteria : dict) (items : list Item)
  (items_to_retain items_to_delete : list Item) : Exc (list Item * list Item) :=
  match items with
  | [] => Ok (items_to_retain, items_to_delete)
  | item :: items' =>
    let? keep := should_retain criteria item in
    if keep then retain_loop criteria items' (app items_to_retain [item]) items_to_delete
    else retain_loop criteria items' items_to_retain (app items_to_delete [item])
  end.

Definition partition (criteria : dict) (all_items : list Item) : Exc (list Item * list Item) :=
  retain_loop criteria all_items [] [].

(** The preview lines of the dry run (lines 202-204). *)
Definition preview_line (item : Item) : string :=
  "- " ++ py_str (get_or (item_data item) "title" (VStr untitled))
  ++ " (" ++ item_key item ++ ")" ++ nl.

(** The deletion loop of the real run (lines 210-215);
    the accumulator is [(result, deleted_count)]. *)
Fixpoint retain_delete_loop (z : Client) (items : list Item) (result : string)
  (deleted_count : nat) : M (string * nat) :=
  match items with
  | [] => ret (result, deleted_count)
  | item :: items' =>
    acc <- try_except (zot_delete_item z (item_key item) ;;; ret (result, S deleted_count))
                      (fun e => ret (result ++ "删除失败 " ++ item_key item ++ ": "
                                     ++ exn_msg e ++ nl, deleted_count)) ;;
    retain_delete_loop z items' (fst acc) (snd acc)
  end.

(** ** [retain_items_by_criteria(criteria, dry_run=True)] *)
Definition retain_items_by_criteria (criteria : dict) (dry_run : option bool) : M reply :=
  let dry_run := match dry_run with Some b => b | None => true end in
  z <- get_zotero_client ;;
  match z with
  | None => ret (Text not_configured_msg)
  | Some z =>
    try_except
      (first <- zot_top z None ;;
       all_items <- zot_everything z first ;;
       parts <- lift (partition criteria all_items) ;;
       let '(items_to_retain, items_to_delete) := parts in
       let result := "根据条件筛选结果:" ++ nl in
       let result := result ++ "保留条目: " ++ nat_to_string (length items_to_retain)
                            ++ " 个" ++ nl in
       let result := result ++ "待删除条目: " ++ nat_to_string (length items_to_delete)
                            ++ " 个" ++ nl in
       if dry_run then
         let result := result ++ nl ++ "[预览模式] 待删除的条目:" ++ nl in
         let result := result ++ String.concat "" (map preview_line (firstn 10 items_to_delete)) in
         let result := if (10 <? length items_to_delete)%nat
                       then result ++ "... 还有 " ++ nat_to_string (length items_to_delete - 10)
                                   ++ " 个条目" ++ nl
                       else result in
         ret (Text result)
       else
         acc <- retain_delete_loop z items_to_delete result 0 ;;
         let '(result, deleted_count) := acc in
         ret (Text (result ++ nl ++ "实际删除了 " ++ nat_to_string deleted_count ++ " 个条目")))
      (fun e => ret (Text ("执行筛选操作失败: " ++ exn_msg e)))
  end.

(** A dict key as [json.dumps] writes it. *)
Definition json_key (v : value) : string :=
  match v with
  | VStr s => s
  | VInt z => z_to_string z
  | VNull => "null"
  end.

(** [type_counts[item_type] = type_counts.get(item_type, 0) + 1] on a dict
    kept in insertion order. *)
Fixpoint count_type (type_counts : list (value * Z)) (item_type : value) : list (value * Z) :=
  match type_counts with
  | [] => [(item_type, 1%Z)]
  | (k, n) :: rest => if value_eqb k item_type then (k, (n + 1)%Z) :: rest
                      else (k, n) :: count_type rest item_type
  end.

Definition error_json (msg : string) : reply := TextJson "" (JObj [("error", JVal (VStr msg))]).

(** ** Resource [zotero://library/stats] *)
Definition get_library_stats : M reply :=
  z <- get_zotero_client ;;
  match z with
  | None => ret (error_json not_configured_json_msg)
  | Some z =>
    try_except
      (items <- zot_top z None ;;
       let total_count := length items in
       let type_counts :=
         fold_left (fun acc item => count_type acc (get_or (item_data item) "itemType" (VStr "unknown")))
                   items [] in
       ret (TextJson "" (JObj [("total_items", JVal (VInt (Z.of_nat total_count)));
                               ("item_types", JObj (map (fun '(k, n) => (json_key k, JVal (VInt n)))
                                                        type_counts))])))
      (fun e => ret (error_json ("获取库统计信息失败: " ++ exn_msg e)))
  end.

(** The summary dict built by [get_recent_items] (lines 262-267). *)
Definition recent_items_row (item : Item) (data : dict) : json :=
  JObj [("key", JVal (VStr (item_key item)));
        ("title", JVal (get_or data "title" (VStr untitled)));
        ("itemType", JVal (get_or data "itemType" VNull));
        ("dateAdded", JVal (get_or data "dateAdded" VNull))].

(** ** Resource [zotero://library/recent] *)
Definition get_recent_items : M reply :=
  z <- get_zotero_client ;;
  match z with
  | None => ret (error_json not_configured_json_msg)
  | Some z =>
    try_except
      (items <- zot_top z (Some 10%Z) ;;
       let recent_items := map (fun item => recent_items_row item (item_data item)) items in
       ret (TextJson "" (JArr recent_items)))
      (fun e => ret (error_json ("获取最近条目失败: " ++ exn_msg e)))
  end.

(** [ZOTERO_API_KEY[:8] + "*" * (len(ZOTERO_API_KEY) - 8) if len(ZOTERO_API_KEY) > 8
     else "*" * len(ZOTERO_API_KEY)] *)
Definition masked_key (api_key : string) : string :=
  if (8 <? String.length api_key)%nat
  then substring 0 8 api_key ++ stars (String.length api_key - 8)
  else stars (String.length api_key).

Definition unconfigured_msg : string :=
  "❌ Zotero未配置" ++ nl ++ "请使用 configure_zotero 工具设置您的API凭据" ++ nl ++ nl
  ++ "需要的信息:" ++ nl ++ "- library_id: 您的Zotero库ID" ++ nl
  ++ "- api_key: 您的Zotero API密钥" ++ nl ++ "- library_type: 'user' 或 'group'".

Definition configured_msg (library_id library_type masked : string) : string :=
  "✅ Zotero已配置" ++ nl ++ "库ID: " ++ library_id ++ nl ++ "库类型: " ++ library_type
  ++ nl ++ "API密钥: " ++ masked.

(** ** [check_zotero_config()] *)
Definition check_zotero_config : M reply :=
  c <- get_cfg ;;
  if (ZOTERO_LIBRARY_ID c =? "") || (ZOTERO_API_KEY c =? "") then ret (Text unconfigured_msg)
  else ret (Text (configured_msg (ZOTERO_LIBRARY_ID c) (ZOTERO_LIBRARY_TYPE c)
                                 (masked_key (ZOTERO_API_KEY c)))).

(** ** Readings of the spec, to be compared with the code *)

(** Case-insensitive substring test (§4.3, [title_contains]). *)
Definition ci_contains (s t : string) : Prop :=
  exists pre post, lower t = pre ++ lower s ++ post.

(** The item's title as text; a missing title counts as the empty title. *)
Definition title_text (item : Item) : option string :=
  match dict_get (item_data item) "title" with
  | None => Some ""
  | Some (VStr t) => Some t
  | Some _ => None
  end.

(** §4.3: an item is retained iff it satisfies every recognized criterion
    present; [item_type] is equality with the item's [itemType] (Python's
    [None] when absent), [title_contains] a case-insensitive substring test. *)
Definition retains_spec (criteria : dict) (item : Item) : Prop :=
  (forall t, dict_get criteria "item_type" = Some t ->
             get_or (item_data item) "itemType" VNull = t) /\
  (forall s, dict_get criteria "title_contains" = Some (VStr s) ->
             exists t, title_text item = Some t /\ ci_contains s t).

(** The [title_contains] criterion, when present, is a string. *)
Definition criteria_typed (criteria : dict) : Prop :=
  forall v, dict_get criteria "title_contains" = Some v -> exists s, v = VStr s.

(** The retention decision the code takes on one item (false if it raises). *)
Definition keep_of (criteria : dict) (item : Item) : bool :=
  match should_retain criteria item with Ok b => b | Raise _ => false end.

Definition deleted_keys (l : list Call) : list string :=
  flat_map (fun c => match c with CDelete k => [k] | _ => [] end) l.

(** §4.4: the deletion of each key, attempted once and in order against the
    remote library, independently of the outcome for the other keys. *)
Fixpoint delete_each (z : Client) (keys : list string) (w : W) : list (string * Exc unit) :=
  match keys with
  | [] => []
  | k :: keys' => let '(w', r) := delete_item_ z k w in (k, r) :: delete_each z keys' w'
  end.

Definition success_count_of (outs : list (string * Exc unit)) : nat :=
  length (filter (fun '(_, r) => match r with Ok _ => true | Raise _ => false end) outs).

(** The failures, as (key, error message) pairs in input order. *)
Definition failures_of (outs : list (string * Exc unit)) : list (string * string) :=
  flat_map (fun '(k, r) => match r with Ok _ => [] | Raise e => [(k, exn_msg e)] end) outs.

(** The Deletion Report {success_count, failures} as the tool prints it. *)
Definition deletion_report (success_count : nat) (failures : list (string * string)) : string :=
  "成功删除 " ++ nat_to_string success_count ++ " 个条目" ++
  match failures with
  | [] => ""
  | _ => nl ++ "删除失败的条目:" ++ nl ++ join nl (map (fun '(k, m) => k ++ ": " ++ m) failures)
  end.

(** §4.2: the item summary {key, title (placeholder when missing), itemType,
    dateAdded}. *)
Definition item_summary (item : Item) : json :=
  JObj [("key", JVal (VStr (item_key item)));
        ("title", JVal (get_or (item_data item) "title" (VStr untitled)));
        ("itemType", JVal (get_or (item_data item) "itemType" VNull));
        ("dateAdded", JVal (get_or (item_data item) "dateAdded" VNull))].

(** The test [search_items] applies to an item (false where it raises). *)
Definition search_match (query : string) (item_type : option string) (item : Item) : bool :=
  match py_lower (get_or (item_data item) "title" (VStr "")) with
  | Ok title =>
    str_in (lower query) title &&
    match item_type with
    | None => true
    | Some t => value_eqb (get_or (item_data item) "itemType" VNull) (VStr t)
    end
  | Raise _ => false
  end.

(** §7: an operation always returns a result; no exception escapes it. *)
Definition returns_result {A} (m : M A) : Prop := forall st, exists a, snd (m st) = Ok a.

(** The library type [configure_zotero] uses when the argument is omitted. *)
Definition library_type_or_default (library_type : option string) : string :=
  match library_type with Some t => t | None => "user" end.

(** The number a [type_counts] dict holds for [k] (0 when absent). *)
Fixpoint count_of (type_counts : list (value * Z)) (k : value) : Z :=
  match type_counts with
  | [] => 0%Z
  | (k', n) :: rest => if value_eqb k' k then n else count_of rest k
  end.

(** The key [get_library_stats] files an item under. *)
Definition stats_type (item : Item) : value := get_or (item_data item) "itemType" (VStr "unknown").

Fixpoint sum_counts (type_counts : list (value * Z)) : Z :=
  match type_counts with
  | [] => 0%Z
  | (_, n) :: rest => (n + sum_counts rest)%Z
  end.

(** Concatenation of report lines. *)
Definition cat (l : list string) : string := fold_right String.append "" l.

(** The line the real run of [retain_items_by_criteria] prints for a
    failed deletion (line 215). *)
Definition retain_fail_line (f : string * string) : string :=
  "删除失败 " ++ fst f ++ ": " ++ snd f ++ nl.

(** * Proofs *)

Lemma value_eqb_eq a b : value_eqb a b = true <-> a = b.
Proof.
  destruct a, b; simpl; split; intro H; try discriminate; try congruence.
  - apply String.eqb_eq in H; congruence.
  - injection H as ->; apply String.eqb_refl.
  - apply Z.eqb_eq in H; congruence.
  - injection H as ->; apply Z.eqb_refl.
Qed.

Lemma value_eqb_refl a : value_eqb a a = true.
Proof. apply value_eqb_eq; reflexivity. Qed.

Lemma prefix_app_iff n h : String.prefix n h = true <-> exists post, h = n ++ post.
Proof.
  revert h; induction n as [|c n IH]; intros h.
  - destruct h; simpl; split; eauto.
  - destruct h as [|c' h]; simpl.
    + split; [discriminate | intros [post H]; discriminate].
    + destruct (ascii_dec c c') as [->|Hne].
      * rewrite IH; split; intros [post Hp]; exists post; congruence.
      * split; [discriminate | intros [post Hp]; congruence].
Qed.

Lemma str_in_iff n h : str_in n h = true <-> exists pre post, h = pre ++ n ++ post.
Proof.
  induction h as [|c h IH].
  - change (str_in n "") with (String.prefix n "" || false).
    rewrite orb_false_r, prefix_app_iff. split.
    + intros [post H]; exists "", post; exact H.
    + intros [pre [post H]]; destruct pre; [exists post; exact H | discriminate].
  - change (str_in n (String c h)) with (String.prefix n (String c h) || str_in n h).
    rewrite orb_true_iff, prefix_app_iff, IH. split.
    + intros [[post H] | [pre [post H]]].
      * exists "", post; exact H.
      * exists (String c pre), post; simpl; congruence.
    + intros [pre [post H]]; destruct pre as [|c0 pre].
      * left; exists post; exact H.
      * right; exists pre, post; simpl in H; congruence.
Qed.

Lemma item_type_ok_iff (criteria : dict) (g : value) :
  match dict_get criteria "item_type" with Some t => value_eqb g t | None => true end = true
  <-> (forall t, dict_get criteria "item_type" = Some t -> g = t).
Proof.
  destruct (dict_get criteria "item_type") as [t|].
  - rewrite value_eqb_eq. split; [intros -> t' H; congruence | intros H; apply H; reflexivity].
  - split; [intros _ t' H; discriminate | reflexivity].
Qed.

Lemma title_ok_iff (criteria : dict) (tt : string) :
  criteria_typed criteria ->
  match dict_get criteria "title_contains" with
  | Some (VStr s) => str_in (lower s) (lower tt)
  | Some _ => false
  | None => true
  end = true
  <-> (forall s, dict_get criteria "title_contains" = Some (VStr s) ->
                 exists t, Some tt = Some t /\ ci_contains s t).
Proof.
  intros Hc. unfold criteria_typed in Hc.
  destruct (dict_get criteria "title_contains") as [v|].
  - destruct (Hc v eq_refl) as [s ->]. rewrite str_in_iff. split.
    + intros H s' Hs'. injection Hs' as <-. exists tt. split; [reflexivity | exact H].
    + intros H. destruct (H s eq_refl) as [t [Ht Hin]]. injection Ht as <-. exact Hin.
  - split; [intros _ s' H; discriminate | reflexivity].
Qed.

Lemma should_retain_eq criteria item tt :
  criteria_typed criteria -> title_text item = Some tt ->
  should_retain criteria item =
  Ok (match dict_get criteria "item_type" with
      | Some t => value_eqb (get_or (item_data item) "itemType" VNull) t
      | None => true end &&
      match dict_get criteria "title_contains" with
      | Some (VStr s) => str_in (lower s) (lower tt)
      | Some _ => false
      | None => true
      end).
Proof.
  intros Hc Ht. unfold should_retain.
  assert (Hg : get_or (item_data item) "title" (VStr "") = VStr tt).
  { unfold title_text, get_or in *.
    destruct (dict_get (item_data item) "title") as [[| |]|]; congruence. }
  destruct (dict_get criteria "title_contains") as [v|] eqn:Etc.
  - destruct (Hc v Etc) as [s ->]. simpl. rewrite Hg. simpl.
    destruct (dict_get criteria "item_type") as [t|];
      [destruct (value_eqb _ t)|]; destruct (str_in _ _); reflexivity.
  - destruct (dict_get criteria "item_type") as [t|];
      [destruct (value_eqb _ t)|]; rewrite ?andb_true_r; reflexivity.
Qed.

Lemma should_retain_spec criteria item :
  criteria_typed criteria -> title_text item <> None ->
  exists b, should_retain criteria item = Ok b /\ (b = true <-> retains_spec criteria item).
Proof.
  intros Hc Ht. destruct (title_text item) as [tt|] eqn:Ett; [|congruence].
  eexists; split; [apply (should_retain_eq _ _ tt Hc Ett)|].
  unfold retains_spec. rewrite andb_true_iff, item_type_ok_iff, title_ok_iff by exact Hc.
  rewrite Ett. reflexivity.
Qed.

Lemma retain_loop_ok criteria items R D r d :
  retain_loop criteria items R D = Ok (r, d) ->
  r = app R (filter (keep_of criteria) items) /\
  d = app D (filter (fun it => negb (keep_of criteria it)) items).
Proof.
  revert R D. induction items as [|it items IH]; intros R D H; simpl in *.
  - injection H as <- <-. rewrite !app_nil_r. split; reflexivity.
  - destruct (should_retain criteria it) as [b|e] eqn:Hs; simpl in H; [|discriminate].
    assert (Hk : keep_of criteria it = b) by (unfold keep_of; rewrite Hs; reflexivity).
    rewrite Hk.
    destruct b; simpl; apply IH in H; destruct H as [Hr Hd]; rewrite Hr, Hd, <- !app_assoc;
      split; reflexivity.
Qed.

Lemma retain_loop_total criteria items R D :
  (forall it, In it items -> exists b, should_retain criteria it = Ok b) ->
  retain_loop criteria items R D =
  Ok (app R (filter (keep_of criteria) items),
      app D (filter (fun it => negb (keep_of criteria it)) items)).
Proof.
  revert R D. induction items as [|it items IH]; intros R D H; simpl.
  - rewrite !app_nil_r. reflexivity.
  - destruct (H it (or_introl eq_refl)) as [b Hb].
    assert (Hk : keep_of criteria it = b) by (unfold keep_of; rewrite Hb; reflexivity).
    rewrite Hk, Hb. simpl.
    destruct b; simpl; rewrite IH by (intros it' Hin; apply H; right; exact Hin);
      rewrite <- ?app_assoc; reflexivity.
Qed.

Lemma filter_split_perm {A} (p : A -> bool) (l : list A) :
  Permutation (app (filter p l) (filter (fun x => negb (p x)) l)) l.
Proof.
  induction l as [|x l IH]; simpl; [constructor|].
  destruct (p x); simpl.
  - constructor. exact IH.
  - apply Permutation_sym, Permutation_cons_app, Permutation_sym, IH.
Qed.

(** ** The retention filter *)

(** C2: on criteria whose [title_contains] is a string and items whose
    title is a string or missing, the filter retains an item iff it meets
    every recognized criterion present ([item_type]: exact equality with
    [itemType]; [title_contains]: case-insensitive substring of the title, a
    missing title read as empty), and deletes the others; criteria with
    neither recognized key (in particular empty criteria) retain every item. *)
Theorem retain_filter_conjunction (criteria : dict) (items : list Item) :
  criteria_typed criteria ->
  (forall it, In it items -> title_text it <> None) ->
  partition criteria items =
    Ok (filter (keep_of criteria) items,
        filter (fun it => negb (keep_of criteria it)) items) /\
  (forall it, In it items -> (keep_of criteria it = true <-> retains_spec criteria it)) /\
  (dict_get criteria "item_type" = None -> dict_get criteria "title_contains" = None ->
   partition criteria items = Ok (items, [])).
Proof.
  intros Hc Ht.
  assert (Hok : forall it, In it items -> exists b, should_retain criteria it = Ok b /\
                                               (b = true <-> retains_spec criteria it))
    by (intros it Hin; apply should_retain_spec; auto).
  split; [|split].
  - unfold partition. apply retain_loop_total.
    intros it Hin. destruct (Hok it Hin) as [b [Hb _]]. eauto.
  - intros it Hin. destruct (Hok it Hin) as [b [Hb Hiff]].
    unfold keep_of. rewrite Hb. exact Hiff.
  - intros H1 H2. unfold partition.
    assert (Hall : forall it, should_retain criteria it = Ok true)
      by (intros it; unfold should_retain; rewrite H1, H2; reflexivity).
    rewrite retain_loop_total by (intros it _; exists true; apply Hall).
    simpl. f_equal. f_equal.
    + clear Ht Hok. induction items as [|it items IH]; [reflexivity|].
      simpl. unfold keep_of at 1. rewrite Hall. simpl. f_equal. exact IH.
    + clear Ht Hok. induction items as [|it items IH]; [reflexivity|].
      simpl. unfold keep_of at 1. rewrite Hall. simpl. exact IH.
Qed.

(** C3: whenever the filter produces its two sequences, they are the items
    the code keeps and the others, each in input order, and together they
    hold every input item exactly once (as items and as keys). *)
Theorem retain_partition_total_ordered (criteria : dict) (items r d : list Item) :
  partition criteria items = Ok (r, d) ->
  r = filter (keep_of criteria) items /\
  d = filter (fun it => negb (keep_of criteria it)) items /\
  Permutation (app r d) items /\
  Permutation (app (map item_key r) (map item_key d)) (map item_key items).
Proof.
  intros H. apply retain_loop_ok in H. simpl in H. destruct H as [-> ->].
  split; [reflexivity|]. split; [reflexivity|].
  split; [apply filter_split_perm|].
  rewrite <- map_app. apply Permutation_map, filter_split_perm.
Qed.

(** ** Call-log reasoning *)

(** [m] only appends calls satisfying [P] to the log, never removes any. *)
Definition extends_with (P : Call -> Prop) {A} (m : M A) : Prop :=
  forall st, exists new, calls (fst (m st)) = app (calls st) new /\ Forall P new.

Lemma ext_ret P {A} (a : A) : extends_with P (ret a).
Proof. intros st. exists []. rewrite app_nil_r. auto. Qed.

Lemma ext_lift P {A} (r : Exc A) : extends_with P (lift r).
Proof. intros st. exists []. rewrite app_nil_r. auto. Qed.

Lemma ext_put_cfg P c : extends_with P (put_cfg c).
Proof. intros st. exists []. rewrite app_nil_r. auto. Qed.

Lemma ext_get_cfg P : extends_with P get_cfg.
Proof. intros st. exists []. rewrite app_nil_r. auto. Qed.

Lemma ext_call P {A} c (f : W -> W * Exc A) : P c -> extends_with P (call c f).
Proof.
  intros Hc st. unfold call. destruct (f (world st)) as [w' r]. simpl.
  exists [c]. auto.
Qed.

Lemma ext_bind P {A B} (m : M A) (f : A -> M B) :
  extends_with P m -> (forall a, extends_with P (f a)) -> extends_with P (bind m f).
Proof.
  intros Hm Hf st. unfold bind. destruct (Hm st) as [n1 [E1 F1]].
  destruct (m st) as [st1 [a|e]] eqn:Em; simpl in *.
  - destruct (Hf a st1) as [n2 [E2 F2]]. exists (app n1 n2).
    rewrite E2, E1, app_assoc. split; [reflexivity|]. apply Forall_app; auto.
  - exists n1. auto.
Qed.

Lemma ext_try P {A} (m : M A) (h : exn -> M A) :
  extends_with P m -> (forall e, extends_with P (h e)) -> extends_with P (try_except m h).
Proof.
  intros Hm Hh st. unfold try_except. destruct (Hm st) as [n1 [E1 F1]].
  destruct (m st) as [st1 [a|e]] eqn:Em; simpl in *.
  - exists n1. auto.
  - destruct (Hh e st1) as [n2 [E2 F2]]. exists (app n1 n2).
    rewrite E2, E1, app_assoc. split; [reflexivity|]. apply Forall_app; auto.
Qed.

Lemma ext_get_zotero_client P : extends_with P get_zotero_client.
Proof.
  unfold get_zotero_client. apply ext_bind; [apply ext_get_cfg|]. intros c.
  destruct (_ || _); [apply ext_ret|].
  destruct (zot c); [apply ext_ret|].
  destruct (construct _ _ _); [apply ext_bind; [apply ext_put_cfg | intros; apply ext_ret]
                              | apply ext_ret].
Qed.

Create HintDb calllog.
#[local] Hint Resolve ext_ret ext_lift ext_put_cfg ext_get_cfg ext_get_zotero_client : calllog.

Ltac calllog :=
  repeat first
    [ solve [eauto with calllog]
    | apply ext_try | apply ext_bind
    | apply ext_call; simpl; exact I
    | match goal with |- extends_with _ (match ?x with _ => _ end) => destruct x end
    | progress cbv zeta
    | intro ].

Definition not_delete (c : Call) : Prop := match c with CDelete _ => False | _ => True end.

Lemma deleted_keys_app l1 l2 :
  deleted_keys (app l1 l2) = app (deleted_keys l1) (deleted_keys l2).
Proof. unfold deleted_keys. apply flat_map_app. Qed.

Lemma deleted_keys_not_delete l : Forall not_delete l -> deleted_keys l = [].
Proof. induction 1 as [|[] l Hx _ IH]; simpl in *; tauto. Qed.

Lemma retain_delete_loop_spec z items result n st :
  calls (fst (retain_delete_loop z items result n st)) =
    app (calls st) (map (fun it => CDelete (item_key it)) items) /\
  exists out, snd (retain_delete_loop z items result n st) = Ok out.
Proof.
  revert result n st. induction items as [|it items IH]; intros result n st; simpl.
  - rewrite app_nil_r. eauto.
  - unfold bind at 1, try_except, zot_delete_item, call, bind, ret.
    destruct (delete_item_ z (item_key it) (world st)) as [w' [[]|e]]; simpl;
      (split; [rewrite (proj1 (IH _ _ _)); simpl; rewrite <- app_assoc; reflexivity
              | apply (proj2 (IH _ _ _))]).
Qed.

Lemma get_zotero_client_calls st : calls (fst (get_zotero_client st)) = calls st.
Proof.
  unfold get_zotero_client, bind, get_cfg, ret, put_cfg.
  destruct (_ || _); [reflexivity|].
  destruct (zot (cfg st)); [reflexivity|].
  destruct (construct _ _ _); reflexivity.
Qed.

(** ** The dry-run protocol of [retain_items_by_criteria] *)

(** C1: unless the caller passes an explicit [dry_run=False] (the argument
    defaults to true), the operation adds no delete call to the client's
    log; with [dry_run=False], once the full collection has been fetched and
    partitioned, the calls made are the two fetches followed by exactly one
    [delete_item] per item of the delete set, in fetch order. *)
Theorem retain_dry_run_protocol (criteria : dict) :
  (forall dry_run st, dry_run <> Some false ->
     exists new, calls (fst (retain_items_by_criteria criteria dry_run st)) = app (calls st) new /\
                 deleted_keys new = []) /\
  (forall st st1 z first w2 w3 all_items r d,
     get_zotero_client st = (st1, Ok (Some z)) ->
     top_ z None (world st1) = (w2, Ok first) ->
     everything_ z first w2 = (w3, Ok all_items) ->
     partition criteria all_items = Ok (r, d) ->
     calls (fst (retain_items_by_criteria criteria (Some false) st)) =
       app (calls st) (CTop None :: CEverything :: map (fun it => CDelete (item_key it)) d)).
Proof.
  split.
  - intros dry_run st Hd.
    assert (Hext : extends_with not_delete (retain_items_by_criteria criteria dry_run)).
    { unfold retain_items_by_criteria.
      assert (Hb : match dry_run with Some b => b | None => true end = true)
        by (destruct dry_run as [[]|]; congruence).
      rewrite Hb. calllog. }
    destruct (Hext st) as [new [E F]]. exists new. split; [exact E|].
    apply deleted_keys_not_delete, F.
  - intros st st1 z first w2 w3 all_items r d Hz Ht He Hp.
    pose proof (get_zotero_client_calls st) as Hc. rewrite Hz in Hc. simpl in Hc.
    unfold retain_items_by_criteria, bind at 1. rewrite Hz.
    unfold try_except, bind at 1, zot_top, call. rewrite Ht.
    unfold bind at 1, zot_everything, call. simpl. rewrite He.
    unfold bind at 1, lift. simpl. rewrite Hp.
    unfold bind at 1.
    match goal with
    | |- context [retain_delete_loop z d ?res 0 ?s] =>
        destruct (retain_delete_loop_spec z d res 0 s) as [E [out Hout]];
        destruct (retain_delete_loop z d res 0 s) as [st4 [[res' cnt]|e]] eqn:Eloop
    end; simpl in Hout; [|discriminate].
    simpl in E |- *. rewrite E, Hc, <- !app_assoc. reflexivity.
Qed.

(** ** Batch deletion *)

Lemma bind_client_some {A} (k : option Client -> M A) st st1 z :
  get_zotero_client st = (st1, Ok (Some z)) -> bind get_zotero_client k st = k (Some z) st1.
Proof. intros H. unfold bind. rewrite H. reflexivity. Qed.

Lemma bind_ok {A B} (m : M A) (f : A -> M B) st st' a :
  m st = (st', Ok a) -> bind m f st = f a st'.
Proof. intros H. unfold bind. rewrite H. reflexivity. Qed.

Lemma str_app_assoc (a b c : string) : a ++ (b ++ c) = (a ++ b) ++ c.
Proof. induction a as [|x a IH]; simpl; [reflexivity | rewrite IH; reflexivity]. Qed.

Lemma str_app_nil_r (a : string) : a ++ "" = a.
Proof. induction a as [|x a IH]; simpl; [reflexivity | rewrite IH; reflexivity]. Qed.

Lemma delete_batch_loop_spec z keys n errors st :
  calls (fst (delete_batch_loop z keys n errors st)) = app (calls st) (map CDelete keys) /\
  snd (delete_batch_loop z keys n errors st) =
    Ok ((n + success_count_of (delete_each z keys (world st)))%nat,
        app errors (map (fun '(k, m) => k ++ ": " ++ m)
                        (failures_of (delete_each z keys (world st))))).
Proof.
  revert n errors st. induction keys as [|k keys IH]; intros n errors st; simpl.
  - rewrite !app_nil_r, Nat.add_0_r. split; reflexivity.
  - unfold bind at 1, try_except, zot_delete_item, call, bind, ret.
    destruct (delete_item_ z k (world st)) as [w' [[]|e]]; simpl.
    + destruct (IH (S n) errors (mkSt (cfg st) w' (app (calls st) [CDelete k]))) as [E R].
      simpl in E, R; rewrite E, R, <- app_assoc; split; [reflexivity|].
      unfold success_count_of, failures_of in *. simpl. f_equal. f_equal. lia.
    + destruct (IH n (app errors [k ++ ": " ++ exn_msg e])
                  (mkSt (cfg st) w' (app (calls st) [CDelete k]))) as [E R].
      simpl in E, R; rewrite E, R, <- app_assoc; split; [reflexivity|].
      unfold success_count_of, failures_of in *. simpl. rewrite <- app_assoc. reflexivity.
Qed.

(** C4: [delete_items_batch] calls [delete_item] exactly once per key, in
    input order, whatever the earlier deletions did; its report gives the
    number of successful deletions and the failures as (key, message) pairs
    in input order. *)
Theorem delete_items_batch_isolated (item_keys : list string) st st1 z :
  get_zotero_client st = (st1, Ok (Some z)) ->
  calls (fst (delete_items_batch item_keys st)) = app (calls st) (map CDelete item_keys) /\
  snd (delete_items_batch item_keys st) =
    Ok (Text (deletion_report (success_count_of (delete_each z item_keys (world st1)))
                              (failures_of (delete_each z item_keys (world st1))))).
Proof.
  intros Hz. pose proof (get_zotero_client_calls st) as Hc. rewrite Hz in Hc. simpl in Hc.
  unfold delete_items_batch. rewrite (bind_client_some _ _ _ _ Hz). cbv beta iota.
  destruct (delete_batch_loop_spec z item_keys 0 [] st1) as [E R].
  destruct (delete_batch_loop z item_keys 0 [] st1) as [st2 [[cnt errs]|e]] eqn:Eloop;
    simpl in E, R; [|discriminate].
  injection R as -> ->.
  unfold try_except. rewrite (bind_ok _ _ _ _ _ Eloop). unfold ret. cbv beta iota zeta.
  split; [simpl; rewrite E, Hc; reflexivity|].
  unfold snd, deletion_report. f_equal. f_equal.
  destruct (failures_of _); cbn [map app]; [rewrite str_app_nil_r; reflexivity|].
  rewrite !str_app_assoc. reflexivity.
Qed.

(** ** Configuration *)

Lemma configure_valid_run library_id api_key library_type st :
  library_id <> "" -> api_key <> "" ->
  (library_type_or_default library_type = "user" \/
   library_type_or_default library_type = "group") ->
  let lt := library_type_or_default library_type in
  let c := mkCfg (strip library_id) (strip api_key) (strip lt) None in
  let fail e := Text ("❌ Zotero配置失败: " ++ exn_msg e ++ nl
                      ++ "请检查您的库ID和API密钥是否正确") in
  cfg (fst (configure_zotero library_id api_key library_type st)) = c /\
  (forall e, construct (strip library_id) (strip lt) (strip api_key) = Raise e ->
     configure_zotero library_id api_key library_type st =
       (mkSt c (world st) (calls st), Ok (fail e))) /\
  (forall tc, construct (strip library_id) (strip lt) (strip api_key) = Ok tc ->
     exists w' r, top_ tc (Some 1%Z) (world st) = (w', r) /\
     calls (fst (configure_zotero library_id api_key library_type st)) =
       app (calls st) [CTop (Some 1%Z)] /\
     (forall e, r = Raise e -> snd (configure_zotero library_id api_key library_type st) =
                               Ok (fail e))).
Proof.
  intros H1 H2 H3 lt c fail.
  unfold configure_zotero. fold (library_type_or_default library_type). fold lt.
  apply String.eqb_neq in H1, H2. rewrite H1, H2. simpl orb. cbv iota.
  assert (Hv : negb ((lt =? "user") || (lt =? "group")) = false)
    by (destruct H3 as [E|E]; unfold lt; rewrite E; reflexivity).
  rewrite Hv.
  unfold bind, put_cfg, get_cfg, try_except, lift, zot_top, call, ret. simpl.
  destruct (construct (strip library_id) (strip lt) (strip api_key)) as [tc|e] eqn:Ec.
  - destruct (top_ tc (Some 1%Z) (world st)) as [w' [u|e]] eqn:Et; simpl.
    + split; [reflexivity|]. split; [intros e He; discriminate|].
      intros tc' Htc. injection Htc as <-. exists w', (Ok u).
      split; [exact Et|]. split; [reflexivity | intros e He; discriminate].
    + split; [reflexivity|]. split; [intros e' He; discriminate|].
      intros tc' Htc. injection Htc as <-. exists w', (Raise e).
      split; [exact Et|]. split; [reflexivity|].
      intros e' He'. injection He' as <-. reflexivity.
  - simpl. split; [reflexivity|]. split.
    + intros e' He'. injection He' as <-. reflexivity.
    + intros tc Htc; discriminate.
Qed.

(** C5: a [configure_zotero] call that fails validation (empty library id,
    empty API key, or a library type other than user/group) leaves the whole
    state, credentials and cached client included, as it was; so
    [get_zotero_client] behaves afterwards exactly as before. *)
Theorem configure_rejected_keeps_state library_id api_key library_type st :
  (library_id = "" \/ api_key = "" \/
   (library_type_or_default library_type <> "user" /\
    library_type_or_default library_type <> "group")) ->
  fst (configure_zotero library_id api_key library_type st) = st /\
  get_zotero_client (fst (configure_zotero library_id api_key library_type st)) =
    get_zotero_client st.
Proof.
  intros H. unfold configure_zotero. fold (library_type_or_default library_type).
  destruct H as [->|[->|[Hu Hg]]].
  - simpl. split; reflexivity.
  - rewrite orb_true_r. simpl. split; reflexivity.
  - apply String.eqb_neq in Hu, Hg. rewrite Hu, Hg. simpl.
    destruct (_ || _); simpl; split; reflexivity.
Qed.

(** C6: after a [configure_zotero] call that passes validation, the stored
    credentials are the new (stripped) ones and the cached client is reset,
    whatever the live probe then does; a probe that raises, in the
    constructor or in [top(limit=1)], yields the textual failure message as
    the result, and the new credentials stay. *)
Theorem configure_commits_before_probe library_id api_key library_type st :
  library_id <> "" -> api_key <> "" ->
  (library_type_or_default library_type = "user" \/
   library_type_or_default library_type = "group") ->
  cfg (fst (configure_zotero library_id api_key library_type st)) =
    mkCfg (strip library_id) (strip api_key) (strip (library_type_or_default library_type)) None /\
  (forall e, construct (strip library_id) (strip (library_type_or_default library_type))
                       (strip api_key) = Raise e ->
     snd (configure_zotero library_id api_key library_type st) =
       Ok (Text ("❌ Zotero配置失败: " ++ exn_msg e ++ nl
                 ++ "请检查您的库ID和API密钥是否正确"))) /\
  (forall tc w' e, construct (strip library_id) (strip (library_type_or_default library_type))
                             (strip api_key) = Ok tc ->
     top_ tc (Some 1%Z) (world st) = (w', Raise e) ->
     calls (fst (configure_zotero library_id api_key library_type st)) =
       app (calls st) [CTop (Some 1%Z)] /\
     snd (configure_zotero library_id api_key library_type st) =
       Ok (Text ("❌ Zotero配置失败: " ++ exn_msg e ++ nl
                 ++ "请检查您的库ID和API密钥是否正确"))).
Proof.
  intros H1 H2 H3.
  destruct (configure_valid_run library_id api_key library_type st H1 H2 H3) as [Hc [Hr Ht]].
  split; [exact Hc|]. split.
  - intros e He. rewrite (Hr e He). reflexivity.
  - intros tc w' e Htc Htop. destruct (Ht tc Htc) as [w'' [r [Et [Ecalls Hfail]]]].
    rewrite Htop in Et. injection Et as <- <-. split; [exact Ecalls | apply Hfail; reflexivity].
Qed.

(** C10: a library id (or API key) that is non-empty but all whitespace passes
    validation, yet what is stored is the stripped, empty, string: afterwards
    [get_zotero_client] returns the absent client and [check_zotero_config]
    reports the server as unconfigured. *)
Theorem configure_blank_credentials_unconfigured library_id api_key library_type st :
  library_id <> "" -> api_key <> "" ->
  (library_type_or_default library_type = "user" \/
   library_type_or_default library_type = "group") ->
  (strip library_id = "" \/ strip api_key = "") ->
  let st' := fst (configure_zotero library_id api_key library_type st) in
  (ZOTERO_LIBRARY_ID (cfg st') = "" \/ ZOTERO_API_KEY (cfg st') = "") /\
  get_zotero_client st' = (st', Ok None) /\
  check_zotero_config st' = (st', Ok (Text unconfigured_msg)).
Proof.
  intros H1 H2 H3 H4 st'.
  destruct (configure_valid_run library_id api_key library_type st H1 H2 H3) as [Hc _].
  fold st' in Hc.
  assert (Hb : (ZOTERO_LIBRARY_ID (cfg st') =? "") || (ZOTERO_API_KEY (cfg st') =? "") = true).
  { rewrite Hc. simpl. destruct H4 as [E|E]; rewrite E; [reflexivity | apply orb_true_r]. }
  split; [|split].
  - rewrite Hc. simpl. exact H4.
  - unfold get_zotero_client, bind, get_cfg, ret. rewrite Hb. reflexivity.
  - unfold check_zotero_config, bind, get_cfg, ret. rewrite Hb. reflexivity.
Qed.

(** ** Masking of the API key *)

Lemma substring_prefix_split (k : string) (n : nat) :
  (n <= String.length k)%nat ->
  exists rest, k = substring 0 n k ++ rest /\ String.length (substring 0 n k) = n /\
               String.length rest = (String.length k - n)%nat.
Proof.
  revert k; induction n as [|n IH]; intros k Hn.
  - exists k. destruct k; simpl; repeat split; lia.
  - destruct k as [|c k]; simpl in Hn; [lia|].
    destruct (IH k ltac:(lia)) as [rest [E [L1 L2]]].
    exists rest. simpl. rewrite <- E, L1, L2. repeat split.
Qed.

(** C7: [check_zotero_config] shows the key through [masked_key] whenever
    credentials are stored (and reports "unconfigured" otherwise); a key of
    at most 8 characters is shown as as many mask characters, a longer key as
    its first 8 characters followed by one mask character per remaining
    character. *)
Theorem check_config_masking :
  (forall st : St,
     check_zotero_config st =
       (st, Ok (Text (if (ZOTERO_LIBRARY_ID (cfg st) =? "") || (ZOTERO_API_KEY (cfg st) =? "")
                      then unconfigured_msg
                      else configured_msg (ZOTERO_LIBRARY_ID (cfg st))
                                          (ZOTERO_LIBRARY_TYPE (cfg st))
                                          (masked_key (ZOTERO_API_KEY (cfg st))))))) /\
  (forall k, (String.length k <= 8)%nat -> masked_key k = stars (String.length k)) /\
  (forall k, (8 < String.length k)%nat ->
     exists pre rest, k = pre ++ rest /\ String.length pre = 8%nat /\
                      masked_key k = pre ++ stars (String.length rest)).
Proof.
  split; [|split].
  - intros st. unfold check_zotero_config, bind, get_cfg, ret.
    destruct (_ || _); reflexivity.
  - intros k Hk. unfold masked_key.
    destruct (Nat.ltb_spec 8 (String.length k)); [lia | reflexivity].
  - intros k Hk. unfold masked_key.
    destruct (Nat.ltb_spec 8 (String.length k)); [|lia].
    destruct (substring_prefix_split k 8 ltac:(lia)) as [rest [E [L1 L2]]].
    exists (substring 0 8 k), rest. rewrite L2. auto.
Qed.

(** ** Item summaries *)

Lemma call_ok {A} c (f : W -> W * Exc A) st w' a :
  f (world st) = (w', Ok a) -> call c f st = (mkSt (cfg st) w' (app (calls st) [c]), Ok a).
Proof. intros H. unfold call. rewrite H. reflexivity. Qed.

Lemma rows_are_summaries item :
  list_items_row item = item_summary item /\
  search_items_row item (item_data item) = item_summary item /\
  recent_items_row item (item_data item) = item_summary item.
Proof. repeat split. Qed.

Lemma search_loop_summaries query item_type items acc :
  (forall it, In it items -> title_text it <> None) ->
  search_loop query item_type items acc =
    Ok (app acc (map item_summary (filter (search_match query item_type) items))).
Proof.
  revert acc. induction items as [|it items IH]; intros acc Ht; simpl.
  - rewrite app_nil_r. reflexivity.
  - assert (Hti : exists t, get_or (item_data it) "title" (VStr "") = VStr t).
    { specialize (Ht it (or_introl eq_refl)). unfold title_text, get_or in *.
      destruct (dict_get (item_data it) "title") as [[t| |]|]; eauto; congruence. }
    destruct Hti as [t Ht'].
    unfold search_match. rewrite Ht'. simpl.
    rewrite IH by (intros it' Hin; apply Ht; right; exact Hin).
    destruct (str_in (lower query) (lower t)); simpl;
      [destruct item_type as [ty|]; [destruct (value_eqb _ _)|]|]; simpl;
      rewrite <- ?app_assoc; reflexivity.
Qed.

(** C8: [list_items], [search_items] and [get_recent_items] build the same
    summary {key, title, itemType, dateAdded} of an item, with the same
    placeholder for a missing title ("无标题", i.e. "Untitled"): each lists
    exactly [item_summary] of the items it selects. *)
Theorem summary_projection_shared :
  (forall item,
     list_items_row item = item_summary item /\
     search_items_row item (item_data item) = item_summary item /\
     recent_items_row item (item_data item) = item_summary item) /\
  (forall limit st st1 z w items,
     get_zotero_client st = (st1, Ok (Some z)) ->
     top_ z (Some (match limit with Some l => l | None => 50%Z end)) (world st1) = (w, Ok items) ->
     exists header, snd (list_items limit st) = Ok (TextJson header (JArr (map item_summary items)))) /\
  (forall st st1 z w items,
     get_zotero_client st = (st1, Ok (Some z)) ->
     top_ z (Some 10%Z) (world st1) = (w, Ok items) ->
     snd (get_recent_items st) = Ok (TextJson "" (JArr (map item_summary items)))) /\
  (forall query item_type st st1 z first w2 w3 items,
     get_zotero_client st = (st1, Ok (Some z)) ->
     top_ z None (world st1) = (w2, Ok first) ->
     everything_ z first w2 = (w3, Ok items) ->
     (forall it, In it items -> title_text it <> None) ->
     exists header, snd (search_items query item_type st) =
       Ok (TextJson header (JArr (map item_summary (filter (search_match query item_type) items))))).
Proof.
  split; [exact rows_are_summaries|]. split; [|split].
  - intros limit st st1 z w items Hz Ht.
    unfold list_items. cbv zeta. rewrite (bind_client_some _ _ _ _ Hz). cbv beta iota.
    unfold try_except, zot_top. rewrite (bind_ok _ _ _ _ _ (call_ok _ _ _ _ _ Ht)).
    unfold ret. simpl. eexists. reflexivity.
  - intros st st1 z w items Hz Ht.
    unfold get_recent_items. rewrite (bind_client_some _ _ _ _ Hz). cbv beta iota.
    unfold try_except, zot_top. rewrite (bind_ok _ _ _ _ _ (call_ok _ _ _ _ _ Ht)).
    unfold ret. simpl. reflexivity.
  - intros query item_type st st1 z first w2 w3 items Hz Ht He Hti.
    unfold search_items. rewrite (bind_client_some _ _ _ _ Hz). cbv beta iota.
    unfold try_except, zot_top. rewrite (bind_ok _ _ _ _ _ (call_ok _ _ _ _ _ Ht)).
    cbv beta. unfold zot_everything.
    rewrite (bind_ok _ _ _ _ _ (call_ok CEverything (everything_ z first)
               (mkSt (cfg st1) w2 (app (calls st1) [CTop None])) w3 items He)).
    cbv beta. unfold bind at 1, lift. rewrite (search_loop_summaries _ _ _ _ Hti).
    unfold ret. simpl. eexists. reflexivity.
Qed.

(** ** Every operation returns a result *)

Lemma rr_ret {A} (a : A) : returns_result (ret a).
Proof. intros st. exists a. reflexivity. Qed.

Lemma rr_get_cfg : returns_result get_cfg.
Proof. intros st. eexists. reflexivity. Qed.

Lemma rr_put_cfg c : returns_result (put_cfg c).
Proof. intros st. eexists. reflexivity. Qed.

Lemma rr_bind {A B} (m : M A) (f : A -> M B) :
  returns_result m -> (forall a, returns_result (f a)) -> returns_result (bind m f).
Proof.
  intros Hm Hf st. unfold bind. destruct (Hm st) as [a Ha].
  destruct (m st) as [st1 r]. simpl in Ha. subst r. apply Hf.
Qed.

(** An exception handler that returns a result makes the whole [try]
    return one, whatever its body does. *)
Lemma rr_try {A} (m : M A) (h : exn -> M A) :
  (forall e, returns_result (h e)) -> returns_result (try_except m h).
Proof.
  intros Hh st. unfold try_except.
  destruct (m st) as [st1 [a|e]]; [exists a; reflexivity | apply Hh].
Qed.

Lemma rr_get_zotero_client : returns_result get_zotero_client.
Proof.
  unfold get_zotero_client. apply rr_bind; [apply rr_get_cfg|]. intros c.
  destruct (_ || _); [apply rr_ret|]. destruct (zot c); [apply rr_ret|].
  destruct (construct _ _ _); [apply rr_bind; [apply rr_put_cfg | intros; apply rr_ret]
                              | apply rr_ret].
Qed.

Create HintDb result.
#[local] Hint Resolve rr_ret rr_get_cfg rr_put_cfg rr_get_zotero_client : result.

Ltac returns_result :=
  repeat first
    [ solve [eauto with result]
    | apply rr_try; intro; solve [eauto with result]
    | apply rr_bind
    | match goal with |- returns_result (match ?x with _ => _ end) => destruct x end
    | match goal with |- returns_result (if ?x then _ else _) => destruct x end
    | progress cbv zeta
    | intro ].

Lemma get_zotero_client_world st : world (fst (get_zotero_client st)) = world st.
Proof.
  unfold get_zotero_client, bind, get_cfg, ret, put_cfg.
  destruct (_ || _); [reflexivity|].
  destruct (zot (cfg st)); [reflexivity|].
  destruct (construct _ _ _); reflexivity.
Qed.

Lemma bind_client_none {A} (k : option Client -> M A) st st1 :
  get_zotero_client st = (st1, Ok None) -> bind get_zotero_client k st = k None st1.
Proof. intros H. unfold bind. rewrite H. reflexivity. Qed.

(** C9: no operation lets an exception escape: whatever the client's calls
    raise, each tool and resource returns a textual (or JSON error) result;
    and when no client is available each client-backed operation answers
    with the "not configured" result, leaving the call log and the remote
    library untouched. *)
Theorem operations_total :
  (forall library_id api_key library_type,
     returns_result (configure_zotero library_id api_key library_type)) /\
  (forall limit, returns_result (list_items limit)) /\
  (forall item_key, returns_result (delete_item item_key)) /\
  (forall item_keys, returns_result (delete_items_batch item_keys)) /\
  (forall query item_type, returns_result (search_items query item_type)) /\
  (forall item_key, returns_result (get_item_details item_key)) /\
  (forall criteria dry_run, returns_result (retain_items_by_criteria criteria dry_run)) /\
  returns_result get_library_stats /\
  returns_result get_recent_items /\
  returns_result check_zotero_config /\
  (forall st st1, get_zotero_client st = (st1, Ok None) ->
     calls st1 = calls st /\ world st1 = world st /\
     (forall limit, list_items limit st = (st1, Ok (Text not_configured_msg))) /\
     (forall item_key, delete_item item_key st = (st1, Ok (Text not_configured_msg))) /\
     (forall item_keys, delete_items_batch item_keys st = (st1, Ok (Text not_configured_msg))) /\
     (forall query item_type,
        search_items query item_type st = (st1, Ok (Text not_configured_msg))) /\
     (forall item_key, get_item_details item_key st = (st1, Ok (Text not_configured_msg))) /\
     (forall criteria dry_run,
        retain_items_by_criteria criteria dry_run st = (st1, Ok (Text not_configured_msg))) /\
     get_library_stats st = (st1, Ok (error_json not_configured_json_msg)) /\
     get_recent_items st = (st1, Ok (error_json not_configured_json_msg))).
Proof.
  repeat split; intros;
    try (unfold configure_zotero, list_items, delete_item, delete_items_batch, search_items,
           get_item_details, retain_items_by_criteria, get_library_stats, get_recent_items,
           check_zotero_config; returns_result; fail).
  - pose proof (get_zotero_client_calls st) as E. rewrite H in E. exact E.
  - pose proof (get_zotero_client_world st) as E. rewrite H in E. exact E.
  - unfold list_items. cbv zeta. rewrite (bind_client_none _ _ _ H). reflexivity.
  - unfold delete_item. rewrite (bind_client_none _ _ _ H). reflexivity.
  - unfold delete_items_batch. rewrite (bind_client_none _ _ _ H). reflexivity.
  - unfold search_items. rewrite (bind_client_none _ _ _ H). reflexivity.
  - unfold get_item_details. rewrite (bind_client_none _ _ _ H). reflexivity.
  - unfold retain_items_by_criteria. cbv zeta. rewrite (bind_client_none _ _ _ H). reflexivity.
  - unfold get_library_stats. rewrite (bind_client_none _ _ _ H). reflexivity.
  - unfold get_recent_items. rewrite (bind_client_none _ _ _ H). reflexivity.
Qed.

(** ** The client gateway *)

(** X1: once [get_zotero_client] has produced a client, it is cached: the
    next call returns the same client and changes nothing. *)
Lemma get_zotero_client_cached st st1 z :
  get_zotero_client st = (st1, Ok (Some z)) ->
  zot (cfg st1) = Some z /\ get_zotero_client st1 = (st1, Ok (Some z)).
Proof.
  unfold get_zotero_client, bind, get_cfg, ret, put_cfg.
  destruct ((ZOTERO_LIBRARY_ID (cfg st) =? "") || (ZOTERO_API_KEY (cfg st) =? "")) eqn:Eb;
    [discriminate|].
  destruct (zot (cfg st)) as [z0|] eqn:Ez.
  - intros H. injection H as <- <-. rewrite Eb, Ez. split; reflexivity.
  - destruct (construct _ _ _) as [z0|e]; [|discriminate].
    intros H. injection H as <- <-. simpl. rewrite Eb. split; reflexivity.
Qed.

(** X2: a failing client constructor is not cached: [get_zotero_client]
    reports the absent client and leaves the state as it was, so the next
    call tries to construct the client again. *)
Lemma get_zotero_client_construct_failure st e :
  ZOTERO_LIBRARY_ID (cfg st) <> "" -> ZOTERO_API_KEY (cfg st) <> "" ->
  zot (cfg st) = None ->
  construct (ZOTERO_LIBRARY_ID (cfg st)) (ZOTERO_LIBRARY_TYPE (cfg st))
            (ZOTERO_API_KEY (cfg st)) = Raise e ->
  get_zotero_client st = (st, Ok None).
Proof.
  intros H1 H2 Hz Hc. apply String.eqb_neq in H1, H2.
  unfold get_zotero_client, bind, get_cfg, ret. rewrite H1, H2, Hz, Hc. reflexivity.
Qed.

(** X3: after a [configure_zotero] call that passes validation with
    credentials that stay non-empty once stripped, the next
    [get_zotero_client] builds a fresh client from the new credentials; the
    client cached before the call is never handed out again. *)
Lemma configure_then_fresh_client library_id api_key library_type st z :
  library_id <> "" -> api_key <> "" ->
  (library_type_or_default library_type = "user" \/
   library_type_or_default library_type = "group") ->
  strip library_id <> "" -> strip api_key <> "" ->
  construct (strip library_id) (strip (library_type_or_default library_type))
            (strip api_key) = Ok z ->
  exists st2, get_zotero_client (fst (configure_zotero library_id api_key library_type st)) =
              (st2, Ok (Some z)) /\ zot (cfg st2) = Some z.
Proof.
  intros H1 H2 H3 H4 H5 Hc.
  destruct (configure_valid_run library_id api_key library_type st H1 H2 H3) as [Hcfg _].
  apply String.eqb_neq in H4, H5.
  unfold get_zotero_client, bind, get_cfg, put_cfg, ret. rewrite Hcfg. simpl.
  rewrite H4, H5. simpl. rewrite Hc. eexists. split; reflexivity.
Qed.

(** ** Masking *)

(** X10: the masked key printed by [check_zotero_config] has exactly the
    length of the stored key. *)
Lemma masked_key_length k : String.length (masked_key k) = String.length k.
Proof.
  assert (Hs : forall n, String.length (stars n) = n)
    by (induction n as [|n IH]; simpl; [reflexivity | rewrite IH; reflexivity]).
  assert (Happ : forall a b, String.length (a ++ b) = (String.length a + String.length b)%nat)
    by (induction a as [|c a IH]; intros b; simpl; [reflexivity | rewrite IH; reflexivity]).
  unfold masked_key. destruct (Nat.ltb_spec 8 (String.length k)) as [Hlt|Hge].
  - destruct (substring_prefix_split k 8 ltac:(lia)) as [rest [_ [L1 _]]].
    rewrite Happ, L1, Hs. lia.
  - apply Hs.
Qed.

(** ** Library statistics *)

Lemma count_type_count_of acc t k :
  count_of (count_type acc t) k = (count_of acc k + if value_eqb t k then 1 else 0)%Z.
Proof.
  induction acc as [|[k' n] rest IH]; simpl.
  - destruct (value_eqb t k); reflexivity.
  - destruct (value_eqb k' t) eqn:E1; simpl.
    + apply value_eqb_eq in E1; subst k'.
      destruct (value_eqb t k); lia.
    + destruct (value_eqb k' k) eqn:E2.
      * apply value_eqb_eq in E2; subst k'.
        destruct (value_eqb t k) eqn:E3; [|lia].
        apply value_eqb_eq in E3; subst. rewrite value_eqb_refl in E1; discriminate.
      * exact IH.
Qed.

Lemma count_type_keys acc t x :
  In x (map fst (count_type acc t)) <-> In x (map fst acc) \/ x = t.
Proof.
  induction acc as [|[k' n] rest IH]; simpl.
  - intuition.
  - destruct (value_eqb k' t) eqn:E1; simpl.
    + apply value_eqb_eq in E1; subst k'. intuition.
    + rewrite IH. intuition.
Qed.

Lemma count_type_nodup acc t :
  NoDup (map fst acc) -> NoDup (map fst (count_type acc t)).
Proof.
  induction acc as [|[k' n] rest IH]; simpl; intros Hnd.
  - constructor; [intros []|constructor].
  - inversion Hnd as [|? ? Hni Hnd']; subst.
    destruct (value_eqb k' t) eqn:E1; simpl.
    + constructor; assumption.
    + constructor; [|apply IH; assumption].
      rewrite count_type_keys. intros [Hin|Heq]; [contradiction|].
      subst. rewrite value_eqb_refl in E1. discriminate.
Qed.

Lemma count_type_sum acc t : sum_counts (count_type acc t) = (sum_counts acc + 1)%Z.
Proof.
  induction acc as [|[k' n] rest IH]; simpl; [reflexivity|].
  destruct (value_eqb k' t); simpl; lia.
Qed.

Lemma type_counts_fold items acc :
  let tc := fold_left (fun acc item => count_type acc (stats_type item)) items acc in
  (NoDup (map fst acc) -> NoDup (map fst tc)) /\
  (forall k, count_of tc k =
             (count_of acc k + Z.of_nat (length (filter (fun it => value_eqb (stats_type it) k) items)))%Z) /\
  sum_counts tc = (sum_counts acc + Z.of_nat (length items))%Z.
Proof.
  revert acc; induction items as [|it items IH]; intros acc; simpl.
  - repeat split; auto; intros; lia.
  - destruct (IH (count_type acc (stats_type it))) as [H1 [H2 H3]].
    repeat split.
    + intros Hnd. apply H1, count_type_nodup, Hnd.
    + intros k. rewrite H2, count_type_count_of.
      destruct (value_eqb (stats_type it) k); simpl length; lia.
    + rewrite H3, count_type_sum. lia.
Qed.

Lemma type_counts_keys items acc k :
  In k (map fst (fold_left (fun acc item => count_type acc (stats_type item)) items acc))
  <-> In k (map fst acc) \/ exists it, In it items /\ stats_type it = k.
Proof.
  revert acc. induction items as [|it items IH]; intros acc; simpl.
  - split; [auto|]. intros [H|[? [[] _]]]; exact H.
  - rewrite IH, count_type_keys. split.
    + intros [[H|H]|[it' [H1 H2]]]; eauto.
    + intros [H|[it' [[<-|H1] H2]]]; eauto.
Qed.

Lemma get_library_stats_run st st1 z w2 items :
  get_zotero_client st = (st1, Ok (Some z)) ->
  top_ z None (world st1) = (w2, Ok items) ->
  snd (get_library_stats st) =
    Ok (TextJson "" (JObj [("total_items", JVal (VInt (Z.of_nat (length items))));
                           ("item_types", JObj (map (fun '(k, n) => (json_key k, JVal (VInt n)))
                              (fold_left (fun acc item => count_type acc (stats_type item)) items [])))])).
Proof.
  intros Hc Ht. unfold get_library_stats. rewrite bind_client_some with (1 := Hc).
  unfold try_except, bind, zot_top, call, lift. rewrite Ht. reflexivity.
Qed.

(** X4: the per-type counts reported by [get_library_stats] add up to the
    reported [total_items]. *)
Lemma library_stats_counts_sum st st1 z w2 items :
  get_zotero_client st = (st1, Ok (Some z)) ->
  top_ z None (world st1) = (w2, Ok items) ->
  exists type_counts,
    snd (get_library_stats st) =
      Ok (TextJson "" (JObj [("total_items", JVal (VInt (Z.of_nat (length items))));
                             ("item_types", JObj (map (fun '(k, n) => (json_key k, JVal (VInt n)))
                                                      type_counts))])) /\
    sum_counts type_counts = Z.of_nat (length items).
Proof.
  intros Hc Ht. eexists. split; [apply (get_library_stats_run _ _ _ _ _ Hc Ht)|].
  destruct (type_counts_fold items []) as [_ [_ H3]]. rewrite H3. reflexivity.
Qed.

(** X5: [get_library_stats] lists each item type once, and the count it
    gives a type is the number of fetched items of that type, an item
    without [itemType] counting as "unknown". *)
Lemma library_stats_counts_per_type st st1 z w2 items :
  get_zotero_client st = (st1, Ok (Some z)) ->
  top_ z None (world st1) = (w2, Ok items) ->
  exists type_counts,
    snd (get_library_stats st) =
      Ok (TextJson "" (JObj [("total_items", JVal (VInt (Z.of_nat (length items))));
                             ("item_types", JObj (map (fun '(k, n) => (json_key k, JVal (VInt n)))
                                                      type_counts))])) /\
    NoDup (map fst type_counts) /\
    (forall k, In k (map fst type_counts) <-> exists it, In it items /\ stats_type it = k) /\
    (forall k, count_of type_counts k =
               Z.of_nat (length (filter (fun it => value_eqb (stats_type it) k) items))).
Proof.
  intros Hc Ht. eexists. split; [apply (get_library_stats_run _ _ _ _ _ Hc Ht)|].
  destruct (type_counts_fold items []) as [H1 [H2 _]].
  split; [apply H1; constructor|]. split; [|intros k; rewrite H2; reflexivity].
  intros k. rewrite type_counts_keys. simpl.
  split; [intros [[]|H]; exact H | intros H; right; exact H].
Qed.

(** ** Search *)


Lemma search_items_run query item_type st st1 z w2 first w3 items :
  get_zotero_client st = (st1, Ok (Some z)) ->
  top_ z None (world st1) = (w2, Ok first) ->
  everything_ z first w2 = (w3, Ok items) ->
  snd (search_items query item_type st) =
    match search_loop query item_type items [] with
    | Ok rows => Ok (TextJson ("搜索结果 (" ++ nat_to_string (length rows) ++ " 个条目):" ++ nl)
                              (JArr rows))
    | Raise e => Ok (Text ("搜索失败: " ++ exn_msg e))
    end.
Proof.
  intros Hc Ht He. unfold search_items. rewrite bind_client_some with (1 := Hc).
  unfold try_except, bind, zot_top, zot_everything, call, lift. rewrite Ht. cbn [world].
  rewrite He. destruct (search_loop query item_type items []); reflexivity.
Qed.



Lemma str_in_nil h : str_in "" h = true.
Proof. destruct h; reflexivity. Qed.

(** X8: an empty query with no type filter makes [search_items] list every
    item of the library (all titles being text), in library order. *)
Lemma search_items_empty_query st st1 z w2 first w3 items :
  get_zotero_client st = (st1, Ok (Some z)) ->
  top_ z None (world st1) = (w2, Ok first) ->
  everything_ z first w2 = (w3, Ok items) ->
  (forall it, In it items -> title_text it <> None) ->
  snd (search_items "" None st) =
    Ok (TextJson ("搜索结果 (" ++ nat_to_string (length items) ++ " 个条目):" ++ nl)
                 (JArr (map item_summary items))).
Proof.
  intros Hc Ht He Hti. rewrite (search_items_run _ _ _ _ _ _ _ _ _ Hc Ht He).
  rewrite search_loop_summaries by exact Hti. simpl.
  assert (Hall : filter (search_match "" None) items = items).
  { clear -Hti. induction items as [|it items IH]; [reflexivity|]. simpl.
    assert (Hm : search_match "" None it = true).
    { specialize (Hti it (or_introl eq_refl)). unfold search_match, title_text, get_or in *.
      destruct (dict_get (item_data it) "title") as [[t| |]|]; cbn -[str_in lower]; try congruence;
        change (lower "") with ""; rewrite (str_in_nil (lower t)) || rewrite (str_in_nil ""); reflexivity. }
    rewrite Hm, IH by (intros it' H; apply Hti; right; exact H). reflexivity. }
  rewrite Hall, length_map. reflexivity.
Qed.

(** ** Deletion counts *)

Lemma delete_each_counts z keys w :
  (success_count_of (delete_each z keys w) + length (failures_of (delete_each z keys w)))%nat
  = length keys.
Proof.
  revert w; induction keys as [|k keys IH]; intros w; simpl; [reflexivity|].
  destruct (delete_item_ z k w) as [w' [u|e]]; specialize (IH w');
    unfold success_count_of, failures_of in *; simpl; lia.
Qed.

Lemma delete_items_batch_report item_keys st st1 z :
  get_zotero_client st = (st1, Ok (Some z)) ->
  snd (delete_items_batch item_keys st) =
    Ok (Text (deletion_report (success_count_of (delete_each z item_keys (world st1)))
                              (failures_of (delete_each z item_keys (world st1))))).
Proof.
  intros Hz. unfold delete_items_batch. rewrite (bind_client_some _ _ _ _ Hz). cbv beta iota.
  destruct (delete_batch_loop_spec z item_keys 0 [] st1) as [_ R].
  destruct (delete_batch_loop z item_keys 0 [] st1) as [st2 [[cnt errs]|e]] eqn:Eloop;
    simpl in R; [|discriminate].
  injection R as -> ->.
  unfold try_except. rewrite (bind_ok _ _ _ _ _ Eloop). unfold ret. cbv beta iota zeta.
  unfold snd, deletion_report. f_equal. f_equal.
  destruct (failures_of _); cbn [map app]; [rewrite str_app_nil_r; reflexivity|].
  rewrite !str_app_assoc. reflexivity.
Qed.

(** X9: the number of deletions [delete_items_batch] reports as
    successful plus the number of failed keys it lists is the number of keys
    it was given; in particular, when no deletion fails it reports every key
    as deleted and lists no failure section. *)
Lemma delete_items_batch_counts item_keys st st1 z :
  get_zotero_client st = (st1, Ok (Some z)) ->
  exists n failures,
    snd (delete_items_batch item_keys st) = Ok (Text (deletion_report n failures)) /\
    (n + length failures)%nat = length item_keys /\
    (failures = [] ->
     snd (delete_items_batch item_keys st) =
       Ok (Text ("成功删除 " ++ nat_to_string (length item_keys) ++ " 个条目"))).
Proof.
  intros Hz. rewrite (delete_items_batch_report _ _ _ _ Hz).
  pose proof (delete_each_counts z item_keys (world st1)) as Hn.
  eexists _, _. split; [reflexivity|]. split; [exact Hn|].
  intros Hf. rewrite Hf in Hn |- *. simpl in Hn. rewrite Nat.add_0_r in Hn. rewrite Hn.
  unfold deletion_report. rewrite str_app_nil_r. reflexivity.
Qed.

Lemma retain_delete_loop_text z items result n st :
  snd (retain_delete_loop z items result n st) =
    Ok (result ++ cat (map retain_fail_line (failures_of (delete_each z (map item_key items) (world st)))),
        (n + success_count_of (delete_each z (map item_key items) (world st)))%nat).
Proof.
  revert result n st. induction items as [|it items IH]; intros result n st; simpl.
  - unfold cat. simpl. rewrite str_app_nil_r, Nat.add_0_r. reflexivity.
  - unfold bind at 1, try_except, zot_delete_item, call, bind, ret.
    destruct (delete_item_ z (item_key it) (world st)) as [w' [[]|e]] eqn:Ed; cbv beta iota;
      rewrite IH; cbn [world].
    + replace (delete_each z (map item_key (it :: items)) (world st))
        with ((item_key it, Ok tt : Exc unit) :: delete_each z (map item_key items) w')
        by (simpl; rewrite Ed; reflexivity).
      unfold success_count_of, failures_of. cbn [flat_map filter length app fst snd].
      f_equal. f_equal. lia.
    + replace (delete_each z (map item_key (it :: items)) (world st))
        with ((item_key it, Raise e : Exc unit) :: delete_each z (map item_key items) w')
        by (simpl; rewrite Ed; reflexivity).
      change (failures_of ((item_key it, Raise e : Exc unit) :: ?r))
        with ((item_key it, exn_msg e) :: failures_of r).
      change (success_count_of ((item_key it, Raise e : Exc unit) :: ?r)) with (success_count_of r).
      unfold cat, retain_fail_line. cbn [map fold_right fst snd].
      rewrite <- (str_app_assoc result). reflexivity.
Qed.

(** X6: on a real run ([dry_run=False]) of [retain_items_by_criteria],
    the report ends with one "删除失败 key: message" line per failed
    deletion, in delete-set order, followed by the number of deletions that
    actually succeeded; that number plus the failure lines make up the
    delete set. *)
Lemma retain_real_run_report criteria st st1 z w2 first w3 items retained to_delete :
  get_zotero_client st = (st1, Ok (Some z)) ->
  top_ z None (world st1) = (w2, Ok first) ->
  everything_ z first w2 = (w3, Ok items) ->
  partition criteria items = Ok (retained, to_delete) ->
  let outs := delete_each z (map item_key to_delete) w3 in
  (exists header,
     snd (retain_items_by_criteria criteria (Some false) st) =
       Ok (Text (header ++ cat (map retain_fail_line (failures_of outs)) ++ nl
                 ++ "实际删除了 " ++ nat_to_string (success_count_of outs) ++ " 个条目"))) /\
  (success_count_of outs + length (failures_of outs))%nat = length to_delete.
Proof.
  intros Hc Ht He Hp outs. split.
  2: { unfold outs. rewrite delete_each_counts, length_map. reflexivity. }
  unfold retain_items_by_criteria. rewrite bind_client_some with (1 := Hc).
  unfold try_except, bind at 1, zot_top, call. rewrite Ht.
  unfold bind at 1, zot_everything, call. cbn [world]. rewrite He.
  unfold bind at 1, lift. rewrite Hp. cbv beta iota zeta.
  match goal with
  | |- context [bind (retain_delete_loop z to_delete ?r 0%nat) _ ?s] =>
      pose proof (retain_delete_loop_text z to_delete r 0 s) as Hl;
      destruct (retain_delete_loop z to_delete r 0 s) as [st4 res] eqn:El;
      change (res = Ok (r ++ cat (map retain_fail_line (failures_of (delete_each z (map item_key to_delete) (world s)))),
                        (0 + success_count_of (delete_each z (map item_key to_delete) (world s)))%nat)) in Hl;
      subst res; rewrite (bind_ok _ _ _ _ _ El); exists r;
      exact (f_equal (fun txt => Ok (Text txt)) (eq_sym (str_app_assoc r _ _)))
  end.
Qed.

(** ** Read-only tools *)

(** X12: the listing, search, detail, statistics, recent-items and
    configuration operations never ask the client to delete anything: every
    call they add to the client's log is a read. *)
Lemma read_only_operations_never_delete limit query item_type key library_id api_key library_type :
  extends_with not_delete (list_items limit) /\
  extends_with not_delete (search_items query item_type) /\
  extends_with not_delete (get_item_details key) /\
  extends_with not_delete get_library_stats /\
  extends_with not_delete get_recent_items /\
  extends_with not_delete check_zotero_config /\
  extends_with not_delete (configure_zotero library_id api_key library_type).
Proof.
  repeat split.
  1-6: unfold list_items, search_items, get_item_details, get_library_stats, get_recent_items,
         check_zotero_config, zot_top, zot_everything, zot_item; calllog.
  unfold configure_zotero. cbv zeta.
  destruct (_ || _); [apply ext_ret|]. destruct (negb _); [apply ext_ret|].
  apply ext_bind; [apply ext_put_cfg | intros _].
  apply ext_bind; [apply ext_get_cfg | intros c].
  apply ext_try; [|intros e; apply ext_ret].
  apply ext_bind; [apply ext_lift | intros tc].
  apply ext_bind; [apply ext_call; exact I | intros _; apply ext_ret].
Qed.

End Server.

Arguments mkCfg {Client}.
Arguments mkSt {Client W}.
Arguments cfg {Client W}.
Arguments calls {Client W}.
Arguments world {Client W}.
Arguments ZOTERO_LIBRARY_ID {Client}.
Arguments ZOTERO_API_KEY {Client}.

(** * Runs on the substitute client *)

Lemma retain_dry_run_protocol_witness :
  (exists new,
     calls (fst (retain_items_by_criteria Mock.Client Mock.W Mock.construct Mock.top_
                   Mock.everything_ Mock.delete_item_ [("item_type", VStr "book")] None
                   (mkSt (mkCfg "123" "secret-key-1" "user" None) Mock.lib []))) =
     app [] new /\ deleted_keys new = []) /\
  calls (fst (retain_items_by_criteria Mock.Client Mock.W Mock.construct Mock.top_
                Mock.everything_ Mock.delete_item_ [("item_type", VStr "book")] (Some false)
                (mkSt (mkCfg "123" "secret-key-1" "user" None) Mock.lib []))) =
  [CTop None; CEverything; CDelete "B"].
Proof.
  destruct (retain_dry_run_protocol Mock.Client Mock.W Mock.construct Mock.top_
              Mock.everything_ Mock.delete_item_ [("item_type", VStr "book")]) as [H1 H2].
  split.
  - apply (H1 None (mkSt (mkCfg "123" "secret-key-1" "user" None) Mock.lib [])).
    discriminate.
  - rewrite (H2 (mkSt (mkCfg "123" "secret-key-1" "user" None) Mock.lib [])
                (mkSt (mkCfg "123" "secret-key-1" "user" (Some "secret-key-1")) Mock.lib [])
                "secret-key-1" Mock.lib Mock.lib Mock.lib Mock.lib
                [Mock.item_A; Mock.item_C] [Mock.item_B]);
      reflexivity.
Defined.

Lemma retain_filter_conjunction_witness :
  partition [("item_type", VStr "book"); ("title_contains", VStr "LEARN")] Mock.lib =
  Ok ([Mock.item_A; Mock.item_C], [Mock.item_B]).
Proof.
  rewrite (proj1 (retain_filter_conjunction
                    [("item_type", VStr "book"); ("title_contains", VStr "LEARN")] Mock.lib
                    ltac:(intros v Hv; simpl in Hv; injection Hv as <-; eexists; reflexivity)
                    ltac:(intros it Hin; simpl in Hin;
                          destruct Hin as [<-|[<-|[<-|[]]]]; discriminate))).
  reflexivity.
Defined.

Lemma retain_partition_total_ordered_witness :
  Permutation (app [Mock.item_A; Mock.item_C] [Mock.item_B]) Mock.lib.
Proof.
  apply (retain_partition_total_ordered [("title_contains", VStr "learn")] Mock.lib
           [Mock.item_A; Mock.item_C] [Mock.item_B]).
  reflexivity.
Defined.

Lemma delete_items_batch_isolated_witness :
  calls (fst (delete_items_batch Mock.Client Mock.W Mock.construct Mock.delete_item_
                ["A"; "B"; "C"]
                (mkSt (mkCfg "123" "secret-key-1" "user" None) [Mock.item_A; Mock.item_C] []))) =
  [CDelete "A"; CDelete "B"; CDelete "C"] /\
  snd (delete_items_batch Mock.Client Mock.W Mock.construct Mock.delete_item_
         ["A"; "B"; "C"]
         (mkSt (mkCfg "123" "secret-key-1" "user" None) [Mock.item_A; Mock.item_C] [])) =
  Ok (Text (deletion_report 2 [("B", "Not found: B")])).
Proof.
  destruct (delete_items_batch_isolated Mock.Client Mock.W Mock.construct Mock.delete_item_
              ["A"; "B"; "C"]
              (mkSt (mkCfg "123" "secret-key-1" "user" None) [Mock.item_A; Mock.item_C] [])
              (mkSt (mkCfg "123" "secret-key-1" "user" (Some "secret-key-1"))
                    [Mock.item_A; Mock.item_C] [])
              "secret-key-1" eq_refl) as [E R].
  rewrite E, R. split; reflexivity.
Defined.

Lemma configure_rejected_keeps_state_witness :
  fst (configure_zotero Mock.Client Mock.W Mock.construct Mock.top_ "" "new-key" None
         (mkSt (mkCfg "123" "secret-key-1" "user" None) Mock.lib [])) =
  mkSt (mkCfg "123" "secret-key-1" "user" None) Mock.lib [].
Proof.
  apply (configure_rejected_keeps_state Mock.Client Mock.W Mock.construct Mock.top_
           "" "new-key" None (mkSt (mkCfg "123" "secret-key-1" "user" None) Mock.lib [])).
  left. reflexivity.
Defined.

Lemma configure_commits_before_probe_witness :
  cfg (fst (configure_zotero Mock.Client Mock.W Mock.construct Mock.top_ "456" "bad-key" None
              (mkSt (mkCfg "123" "secret-key-1" "user" (Some "secret-key-1")) Mock.lib []))) =
  mkCfg "456" "bad-key" "user" None /\
  snd (configure_zotero Mock.Client Mock.W Mock.construct Mock.top_ "456" "bad-key" None
         (mkSt (mkCfg "123" "secret-key-1" "user" (Some "secret-key-1")) Mock.lib [])) =
  Ok (Text ("❌ Zotero配置失败: " ++ "Invalid key" ++ nl ++ "请检查您的库ID和API密钥是否正确")).
Proof.
  destruct (configure_commits_before_probe Mock.Client Mock.W Mock.construct Mock.top_
              "456" "bad-key" None
              (mkSt (mkCfg "123" "secret-key-1" "user" (Some "secret-key-1")) Mock.lib [])
              ltac:(discriminate) ltac:(discriminate) (or_introl eq_refl)) as [Hc [_ Hp]].
  split.
  - rewrite Hc. reflexivity.
  - exact (proj2 (Hp "bad-key" Mock.lib (Exn "UserNotAuthorised" "Invalid key")
                     eq_refl eq_refl)).
Defined.

Lemma check_config_masking_witness :
  masked_key "abc" = "***" /\
  exists pre rest, "abcdefghijk" = pre ++ rest /\ String.length pre = 8 /\
                   masked_key "abcdefghijk" = pre ++ stars (String.length rest).
Proof.
  destruct (check_config_masking Mock.Client Mock.W) as [_ [H1 H2]].
  split.
  - rewrite (H1 "abc" ltac:(simpl; lia)). reflexivity.
  - apply H2. simpl. lia.
Defined.

Lemma summary_projection_shared_witness :
  exists header,
    snd (list_items Mock.Client Mock.W Mock.construct Mock.top_ None
           (mkSt (mkCfg "123" "secret-key-1" "user" None) Mock.lib [])) =
    Ok (TextJson header (JArr (map item_summary Mock.lib))).
Proof.
  destruct (summary_projection_shared Mock.Client Mock.W Mock.construct Mock.top_
              Mock.everything_) as [_ [Hl _]].
  apply (Hl None (mkSt (mkCfg "123" "secret-key-1" "user" None) Mock.lib [])
            (mkSt (mkCfg "123" "secret-key-1" "user" (Some "secret-key-1")) Mock.lib [])
            "secret-key-1" Mock.lib Mock.lib eq_refl eq_refl).
Defined.

Lemma operations_total_witness :
  list_items Mock.Client Mock.W Mock.construct Mock.top_ None
    (mkSt (mkCfg "" "" "user" None) Mock.lib []) =
  (mkSt (mkCfg "" "" "user" None) Mock.lib [], Ok (Text not_configured_msg)).
Proof.
  destruct (operations_total Mock.Client Mock.W Mock.construct Mock.top_ Mock.everything_
              Mock.item_ Mock.delete_item_) as [_ [_ [_ [_ [_ [_ [_ [_ [_ [_ H]]]]]]]]]].
  destruct (H (mkSt (mkCfg "" "" "user" None) Mock.lib [])
              (mkSt (mkCfg "" "" "user" None) Mock.lib []) eq_refl) as [_ [_ [Hl _]]].
  apply Hl.
Defined.

Lemma configure_blank_credentials_unconfigured_witness :
  get_zotero_client Mock.Client Mock.W Mock.construct
    (fst (configure_zotero Mock.Client Mock.W Mock.construct Mock.top_ "   " "secret-key-1" None
            (mkSt (mkCfg "123" "secret-key-1" "user" None) Mock.lib []))) =
  (fst (configure_zotero Mock.Client Mock.W Mock.construct Mock.top_ "   " "secret-key-1" None
          (mkSt (mkCfg "123" "secret-key-1" "user" None) Mock.lib [])), Ok None).
Proof.
  apply (configure_blank_credentials_unconfigured Mock.Client Mock.W Mock.construct Mock.top_
           "   " "secret-key-1" None (mkSt (mkCfg "123" "secret-key-1" "user" None) Mock.lib []));
    [discriminate | discriminate | left; reflexivity | left; reflexivity].
Defined.

Lemma get_zotero_client_cached_witness :
  get_zotero_client Mock.Client Mock.W Mock.construct
    (mkSt (mkCfg "123" "secret-key-1" "user" None) Mock.lib []) =
    (mkSt (mkCfg "123" "secret-key-1" "user" (Some "secret-key-1")) Mock.lib [],
     Ok (Some "secret-key-1")) /\
  get_zotero_client Mock.Client Mock.W Mock.construct
    (mkSt (mkCfg "123" "secret-key-1" "user" (Some "secret-key-1")) Mock.lib []) =
    (mkSt (mkCfg "123" "secret-key-1" "user" (Some "secret-key-1")) Mock.lib [],
     Ok (Some "secret-key-1")).
Proof.
  split; [reflexivity|].
  exact (proj2 (get_zotero_client_cached Mock.Client Mock.W Mock.construct
                  (mkSt (mkCfg "123" "secret-key-1" "user" None) Mock.lib [])
                  (mkSt (mkCfg "123" "secret-key-1" "user" (Some "secret-key-1")) Mock.lib [])
                  "secret-key-1" eq_refl)).
Defined.

Lemma get_zotero_client_construct_failure_witness :
  get_zotero_client Mock.Client Mock.W
    (fun _ _ _ => Raise (Exn "UserNotAuthorised" "Invalid key"))
    (mkSt (mkCfg "123" "secret-key-1" "user" None) Mock.lib []) =
    (mkSt (mkCfg "123" "secret-key-1" "user" None) Mock.lib [], Ok None).
Proof.
  apply (get_zotero_client_construct_failure Mock.Client Mock.W
           (fun _ _ _ => Raise (Exn "UserNotAuthorised" "Invalid key"))
           (mkSt (mkCfg "123" "secret-key-1" "user" None) Mock.lib [])
           (Exn "UserNotAuthorised" "Invalid key")); simpl; try discriminate; reflexivity.
Defined.

Lemma configure_then_fresh_client_witness :
  exists st2,
    get_zotero_client Mock.Client Mock.W Mock.construct
      (fst (configure_zotero Mock.Client Mock.W Mock.construct Mock.top_ " 456 " "key-2" None
              (mkSt (mkCfg "123" "secret-key-1" "user" (Some "secret-key-1")) Mock.lib []))) =
      (st2, Ok (Some "key-2")) /\ zot Mock.Client (cfg st2) = Some "key-2".
Proof.
  apply (configure_then_fresh_client Mock.Client Mock.W Mock.construct Mock.top_ " 456 " "key-2" None
           (mkSt (mkCfg "123" "secret-key-1" "user" (Some "secret-key-1")) Mock.lib []) "key-2");
    try (vm_compute; discriminate); [left; reflexivity | reflexivity].
Defined.

Lemma library_stats_counts_sum_witness :
  exists type_counts,
    snd (get_library_stats Mock.Client Mock.W Mock.construct Mock.top_
           (mkSt (mkCfg "123" "secret-key-1" "user" None) Mock.lib [])) =
      Ok (TextJson "" (JObj [("total_items", JVal (VInt 3));
                             ("item_types", JObj (map (fun '(k, n) => (json_key k, JVal (VInt n)))
                                                      type_counts))])) /\
    sum_counts type_counts = 3%Z.
Proof.
  exact (library_stats_counts_sum Mock.Client Mock.W Mock.construct Mock.top_
           (mkSt (mkCfg "123" "secret-key-1" "user" None) Mock.lib [])
           (mkSt (mkCfg "123" "secret-key-1" "user" (Some "secret-key-1")) Mock.lib [])
           "secret-key-1" Mock.lib Mock.lib eq_refl eq_refl).
Defined.

Lemma library_stats_counts_per_type_witness :
  exists type_counts,
    snd (get_library_stats Mock.Client Mock.W Mock.construct Mock.top_
           (mkSt (mkCfg "123" "secret-key-1" "user" None) Mock.lib [])) =
      Ok (TextJson "" (JObj [("total_items", JVal (VInt 3));
                             ("item_types", JObj (map (fun '(k, n) => (json_key k, JVal (VInt n)))
                                                      type_counts))])) /\
    NoDup (map fst type_counts) /\
    (forall k, In k (map fst type_counts) <-> exists it, In it Mock.lib /\ stats_type it = k) /\
    (forall k, count_of type_counts k =
               Z.of_nat (length (filter (fun it => value_eqb (stats_type it) k) Mock.lib))).
Proof.
  exact (library_stats_counts_per_type Mock.Client Mock.W Mock.construct Mock.top_
           (mkSt (mkCfg "123" "secret-key-1" "user" None) Mock.lib [])
           (mkSt (mkCfg "123" "secret-key-1" "user" (Some "secret-key-1")) Mock.lib [])
           "secret-key-1" Mock.lib Mock.lib eq_refl eq_refl).
Defined.

Lemma retain_real_run_report_witness :
  let outs := delete_each Mock.Client Mock.W Mock.delete_item_ "secret-key-1" ["B"] Mock.lib in
  (exists header,
     snd (retain_items_by_criteria Mock.Client Mock.W Mock.construct Mock.top_ Mock.everything_
            Mock.delete_item_ [("item_type", VStr "book")] (Some false)
            (mkSt (mkCfg "123" "secret-key-1" "user" None) Mock.lib [])) =
       Ok (Text (header ++ cat (map retain_fail_line (failures_of outs)) ++ nl
                 ++ "实际删除了 " ++ nat_to_string (success_count_of outs) ++ " 个条目"))) /\
  (success_count_of outs + length (failures_of outs))%nat = 1%nat.
Proof.
  exact (retain_real_run_report Mock.Client Mock.W Mock.construct Mock.top_ Mock.everything_
           Mock.delete_item_ [("item_type", VStr "book")]
           (mkSt (mkCfg "123" "secret-key-1" "user" None) Mock.lib [])
           (mkSt (mkCfg "123" "secret-key-1" "user" (Some "secret-key-1")) Mock.lib [])
           "secret-key-1" Mock.lib Mock.lib Mock.lib Mock.lib
           [Mock.item_A; Mock.item_C] [Mock.item_B] eq_refl eq_refl eq_refl eq_refl).
Defined.

Lemma search_items_empty_query_witness :
  snd (search_items Mock.Client Mock.W Mock.construct Mock.top_ Mock.everything_ "" None
         (mkSt (mkCfg "123" "secret-key-1" "user" None) Mock.lib [])) =
    Ok (TextJson ("搜索结果 (" ++ nat_to_string 3 ++ " 个条目):" ++ nl)
                 (JArr (map item_summary Mock.lib))).
Proof.
  apply (search_items_empty_query Mock.Client Mock.W Mock.construct Mock.top_ Mock.everything_
           (mkSt (mkCfg "123" "secret-key-1" "user" None) Mock.lib [])
           (mkSt (mkCfg "123" "secret-key-1" "user" (Some "secret-key-1")) Mock.lib [])
           "secret-key-1" Mock.lib Mock.lib Mock.lib Mock.lib eq_refl eq_refl eq_refl).
  intros it Hin. simpl in Hin.
  destruct Hin as [<-|[<-|[<-|[]]]]; vm_compute; discriminate.
Defined.

Lemma delete_items_batch_counts_witness :
  exists n failures,
    snd (delete_items_batch Mock.Client Mock.W Mock.construct Mock.delete_item_ ["A"; "Z"]
           (mkSt (mkCfg "123" "secret-key-1" "user" None) Mock.lib [])) =
      Ok (Text (deletion_report n failures)) /\
    (n + length failures)%nat = 2%nat /\
    (failures = [] ->
     snd (delete_items_batch Mock.Client Mock.W Mock.construct Mock.delete_item_ ["A"; "Z"]
            (mkSt (mkCfg "123" "secret-key-1" "user" None) Mock.lib [])) =
       Ok (Text ("成功删除 " ++ nat_to_string 2 ++ " 个条目"))).
Proof.
  exact (delete_items_batch_counts Mock.Client Mock.W Mock.construct Mock.delete_item_ ["A"; "Z"]
           (mkSt (mkCfg "123" "secret-key-1" "user" None) Mock.lib [])
           (mkSt (mkCfg "123" "secret-key-1" "user" (Some "secret-key-1")) Mock.lib [])
           "secret-key-1" eq_refl).
Defined.

